(** * QReminderPlugin: the time resolver, the reminder store and the scheduler

    A shallow embedding of [src/time_parser.py], [src/reminder.py],
    [src/plugin.py] and [src/handlers.py].

    - Python [str] is [string]: the UTF-8 bytes of the text.  Substring
      search and replacement on well-formed UTF-8 agree with the same
      operations on code points.  The regular-expression class [\d] is read
      on the ASCII digits.
    - Python exceptions are the [Raise] results of the [result] monad;
      [try ... except Exception] is [catch].
    - [datetime] is the naive calendar record of CPython with its ordinal
      arithmetic ([_ymd2ord], [_ord2ymd]) and its range 0001..9999.
    - Every [datetime.now()] of one call is read at the one instant [now]
      that the operation receives; [set_reminder_llm] receives two, the
      instant of the resolution and that of the reads which follow it.
    - Python [dict]s are [gmap]s; a reminder record is a dictionary from field
      names to JSON values, as [json.load] delivers it. *)

From Stdlib Require Import ZArith Lia Ascii String List Bool.
From stdpp Require Import base option list strings gmap.

Local Open Scope Z_scope.

(** ** Exceptions *)

Inductive exn : Type :=
| ValueError
| OverflowError
| KeyError
| TypeError
| AttributeError.

Inductive result (A : Type) : Type :=
| Ok (a : A)
| Raise (e : exn).

Arguments Ok {A} a.
Arguments Raise {A} e.

#[global] Instance result_ret : MRet result := fun _ a => Ok a.
#[global] Instance result_bind : MBind result := fun _ _ f m =>
  match m with
  | Ok a => f a
  | Raise e => Raise e
  end.
#[global] Instance result_fmap : FMap result := fun _ _ f m =>
  match m with
  | Ok a => Ok (f a)
  | Raise e => Raise e
  end.

(** [try: m except Exception: h] *)
Definition catch {A : Type} (m : result A) (h : exn → A) : A :=
  match m with
  | Ok a => a
  | Raise e => h e
  end.

(** ** The proleptic Gregorian calendar of CPython's [datetime] *)

Module Calendar.

Definition MINYEAR : Z := 1.
Definition MAXYEAR : Z := 9999.
Definition _MAXORDINAL : Z := 3652059.

Definition _is_leap (year : Z) : bool :=
  (year mod 4 =? 0) && (negb (year mod 100 =? 0) || (year mod 400 =? 0)).

Definition _days_before_year (year : Z) : Z :=
  let y := year - 1 in
  y * 365 + y / 4 - y / 100 + y / 400.

(** [_DAYS_IN_MONTH[month] + (month == 2 and leap)] *)
Definition month_length (leap : bool) (month : Z) : Z :=
  match month with
  | 2 => if leap then 29 else 28
  | 4 | 6 | 9 | 11 => 30
  | _ => 31
  end.

(** [_DAYS_BEFORE_MONTH[month] + (month > 2 and leap)] *)
Definition month_offset (leap : bool) (month : Z) : Z :=
  match month with
  | 1 => 0
  | 2 => 31
  | 3 => 59
  | 4 => 90
  | 5 => 120
  | 6 => 151
  | 7 => 181
  | 8 => 212
  | 9 => 243
  | 10 => 273
  | 11 => 304
  | _ => 334
  end + (if (2 <? month) && leap then 1 else 0).

Definition _days_in_month (year month : Z) : Z :=
  month_length (_is_leap year) month.

Definition _days_before_month (year month : Z) : Z :=
  month_offset (_is_leap year) month.

Definition _ymd2ord (year month day : Z) : Z :=
  _days_before_year year + _days_before_month year month + day.

Definition _DI400Y : Z := 146097.
Definition _DI100Y : Z := 36524.
Definition _DI4Y : Z := 1461.

(** The month and the day of the [n]-th day (from 0) of a year. *)
Definition month_day (leap : bool) (n : Z) : Z * Z :=
  let month := Z.shiftr (n + 50) 5 in
  let preceding := month_offset leap month in
  if n <? preceding
  then (month - 1, n - (preceding - month_length leap (month - 1)) + 1)
  else (month, n - preceding + 1).

Definition _ord2ymd (n : Z) : Z * Z * Z :=
  let n := n - 1 in
  let n400 := n / _DI400Y in
  let n := n mod _DI400Y in
  let year := n400 * 400 + 1 in
  let n100 := n / _DI100Y in
  let n := n mod _DI100Y in
  let n4 := n / _DI4Y in
  let n := n mod _DI4Y in
  let n1 := n / 365 in
  let n := n mod 365 in
  let year := year + (n100 * 100 + n4 * 4 + n1) in
  if (n1 =? 4) || (n100 =? 4)
  then (year - 1, 12, 31)
  else
    let leapyear := (n1 =? 3) && (negb (n4 =? 24) || (n100 =? 3)) in
    let '(month, day) := month_day leapyear n in
    (year, month, day).

(** A date that the [date] constructor accepts ([_check_date_fields]). *)
Definition valid_date (y m d : Z) : Prop :=
  MINYEAR ≤ y ≤ MAXYEAR ∧ 1 ≤ m ≤ 12 ∧ 1 ≤ d ≤ _days_in_month y m.

Definition valid_dateb (y m d : Z) : bool :=
  (MINYEAR <=? y) && (y <=? MAXYEAR) && (1 <=? m) && (m <=? 12)
  && (1 <=? d) && (d <=? _days_in_month y m).

End Calendar.

(** ** Python [str] operations on UTF-8 text *)

Module Text.

Definition is_digit (c : ascii) : bool :=
  let n := nat_of_ascii c in (48 <=? n)%nat && (n <=? 57)%nat.

Definition digit_value (c : ascii) : Z := Z.of_nat (nat_of_ascii c) - 48.

Definition digit_char (d : Z) : ascii := ascii_of_nat (48 + Z.to_nat d).

(** [s.startswith(p)] *)
Fixpoint startswith (p s : string) : bool :=
  match p, s with
  | EmptyString, _ => true
  | String a p', String b s' => if Ascii.eqb a b then startswith p' s' else false
  | String _ _, EmptyString => false
  end.

(** [sub in s] *)
Fixpoint contains (sub s : string) : bool :=
  if startswith sub s then true
  else match s with
       | EmptyString => false
       | String _ s' => contains sub s'
       end.

Fixpoint drop (n : nat) (s : string) : string :=
  match n, s with
  | O, _ => s
  | S _, EmptyString => EmptyString
  | S k, String _ s' => drop k s'
  end.

(** [s.replace(old, new)] for a non-empty [old]: the occurrences are taken
    from the left and do not overlap.  [skip] counts the bytes of the
    occurrence being replaced that are still to be passed over. *)
Fixpoint replace_from (old new : string) (skip : nat) (s : string) : string :=
  match s with
  | EmptyString => EmptyString
  | String c s' =>
      match skip with
      | S k => replace_from old new k s'
      | O =>
          if startswith old s
          then new +:+ replace_from old new (String.length old - 1) s'
          else String c (replace_from old new O s')
      end
  end.

Definition replace (old new s : string) : string := replace_from old new O s.

Fixpoint rev_onto (s acc : string) : string :=
  match s with
  | EmptyString => acc
  | String c s' => rev_onto s' (String c acc)
  end.

Definition rev (s : string) : string := rev_onto s EmptyString.

(** The characters of [str.isspace], as UTF-8 sequences: U+0009..U+000D,
    U+001C..U+0020, U+0085, U+00A0, U+1680, U+2000..U+200A, U+2028, U+2029,
    U+202F, U+205F, U+3000. *)
Definition ascii_space (c : ascii) : bool :=
  let n := nat_of_ascii c in
  ((9 <=? n)%nat && (n <=? 13)%nat) || ((28 <=? n)%nat && (n <=? 32)%nat).

Definition wide_spaces : list (list nat) :=
  ([ [194; 133]; [194; 160]; [225; 154; 128];
    [226; 128; 128]; [226; 128; 129]; [226; 128; 130]; [226; 128; 131];
    [226; 128; 132]; [226; 128; 133]; [226; 128; 134]; [226; 128; 135];
    [226; 128; 136]; [226; 128; 137]; [226; 128; 138];
    [226; 128; 168]; [226; 128; 169]; [226; 128; 175];
    [226; 129; 159]; [227; 128; 128] ])%nat.

Definition of_bytes (l : list nat) : string :=
  fold_right (fun n s => String (ascii_of_nat n) s) EmptyString l.

(** The length of the white-space character that [s] starts with, if any;
    [spaces] lists the multi-byte ones. *)
Definition space_prefix (spaces : list string) (s : string) : option nat :=
  match s with
  | EmptyString => None
  | String c _ =>
      if ascii_space c then Some 1%nat
      else String.length <$> List.find (fun w => startswith w s) spaces
  end.

Fixpoint lstrip_from (spaces : list string) (skip : nat) (s : string) : string :=
  match s with
  | EmptyString => EmptyString
  | String _ s' =>
      match skip with
      | S k => lstrip_from spaces k s'
      | O =>
          match space_prefix spaces s with
          | Some n => lstrip_from spaces (n - 1) s'
          | None => s
          end
      end
  end.

Definition lstrip (s : string) : string :=
  lstrip_from (of_bytes <$> wide_spaces) O s.

Definition rstrip (s : string) : string :=
  rev (lstrip_from ((fun w => rev (of_bytes w)) <$> wide_spaces) O (rev s)).

(** [s.strip()] *)
Definition strip (s : string) : string := rstrip (lstrip s).

(** [int(s)] on a run of ASCII digits. *)
Fixpoint int_from (acc : Z) (s : string) : Z :=
  match s with
  | EmptyString => acc
  | String c s' => int_from (acc * 10 + digit_value c) s'
  end.

Definition int (s : string) : Z := int_from 0 s.

Fixpoint digits_onto (fuel : nat) (n : Z) (acc : string) : string :=
  match fuel with
  | O => acc
  | S f =>
      let acc' := String (digit_char (n mod 10)) acc in
      if n <? 10 then acc' else digits_onto f (n / 10) acc'
  end.

(** [str(n)] for [0 ≤ n] *)
Definition str_of_int (n : Z) : string :=
  digits_onto (S (Z.to_nat (Z.log2 n))) n EmptyString.

Fixpoint zeros (k : nat) (s : string) : string :=
  match k with
  | O => s
  | S k' => String "0" (zeros k' s)
  end.

(** ["%0<width>d" % n] for [0 ≤ n] *)
Definition zfill (width : nat) (n : Z) : string :=
  let s := str_of_int n in
  zeros (width - String.length s) s.

(** The longest run of at most [k] digits that [s] starts with, and what
    follows it. *)
Fixpoint span_digits (k : nat) (s : string) : string * string :=
  match k, s with
  | S k', String c s' =>
      if is_digit c
      then let '(ds, rest) := span_digits k' s' in (String c ds, rest)
      else (EmptyString, s)
  | _, _ => (EmptyString, s)
  end.

(** Exactly [k] digits, read as a number. *)
Definition fixed_digits (k : nat) (s : string) : option (Z * string) :=
  let '(ds, rest) := span_digits k s in
  if (String.length ds =? k)%nat then Some (int ds, rest) else None.

Definition expect (c : ascii) (s : string) : option string :=
  match s with
  | String c' s' => if Ascii.eqb c c' then Some s' else None
  | EmptyString => None
  end.

End Text.

(** ** Naive [datetime] values *)

Import Calendar.

Record datetime : Type := mk_datetime {
  dt_year : Z;
  dt_month : Z;
  dt_day : Z;
  dt_hour : Z;
  dt_minute : Z;
  dt_second : Z;
  dt_microsecond : Z
}.

(** The fields that the [datetime] constructor accepts. *)
Definition valid_timeb (h mi s us : Z) : bool :=
  (0 <=? h) && (h <=? 23) && (0 <=? mi) && (mi <=? 59)
  && (0 <=? s) && (s <=? 59) && (0 <=? us) && (us <=? 999999).

Definition valid_datetimeb (d : datetime) : bool :=
  valid_dateb (dt_year d) (dt_month d) (dt_day d)
  && valid_timeb (dt_hour d) (dt_minute d) (dt_second d) (dt_microsecond d).

Definition valid_datetime (d : datetime) : Prop := valid_datetimeb d = true.

(** [datetime(y, m, d, h, mi, s, us)] *)
Definition make_datetime (y m d h mi s us : Z) : result datetime :=
  let r := mk_datetime y m d h mi s us in
  if valid_datetimeb r then Ok r else Raise ValueError.

Definition toordinal (d : datetime) : Z :=
  _ymd2ord (dt_year d) (dt_month d) (dt_day d).

(** [d.weekday()]: Monday is 0 and Sunday is 6. *)
Definition weekday (d : datetime) : Z := (toordinal d + 6) mod 7.

(** The comparison of [datetime]s is that of their field tuples. *)
Definition lex (c1 c2 : comparison) : comparison :=
  match c1 with
  | Eq => c2
  | _ => c1
  end.

Definition date_compare (a b : datetime) : comparison :=
  lex (dt_year a ?= dt_year b)
    (lex (dt_month a ?= dt_month b) (dt_day a ?= dt_day b)).

Definition time_compare (a b : datetime) : comparison :=
  lex (dt_hour a ?= dt_hour b)
    (lex (dt_minute a ?= dt_minute b)
       (lex (dt_second a ?= dt_second b)
          (dt_microsecond a ?= dt_microsecond b))).

Definition dt_compare (a b : datetime) : comparison :=
  lex (date_compare a b) (time_compare a b).

(** [a < b] *)
Definition dt_ltb (a b : datetime) : bool :=
  match dt_compare a b with
  | Lt => true
  | _ => false
  end.

(** [a <= b] *)
Definition dt_leb (a b : datetime) : bool :=
  match dt_compare a b with
  | Gt => false
  | _ => true
  end.

(** [timedelta(days=.., hours=.., minutes=..)], in seconds; the constructor
    refuses more than 999999999 days. *)
Definition timedelta (days hours minutes : Z) : result Z :=
  let s := days * 86400 + hours * 3600 + minutes * 60 in
  if 999999999 <? Z.abs (s / 86400) then Raise OverflowError else Ok s.

(** [d + delta] ([datetime.__add__]) *)
Definition dt_add (d : datetime) (delta : Z) : result datetime :=
  let total := dt_hour d * 3600 + dt_minute d * 60 + dt_second d + delta in
  let days := toordinal d + total / 86400 in
  let seconds := total mod 86400 in
  if (0 <? days) && (days <=? _MAXORDINAL)
  then
    let '(y, m, dd) := _ord2ymd days in
    Ok (mk_datetime y m dd (seconds / 3600) (seconds mod 3600 / 60)
          (seconds mod 60) (dt_microsecond d))
  else Raise OverflowError.

(** [d + timedelta(days=.., hours=.., minutes=..)] *)
Definition dt_plus (d : datetime) (days hours minutes : Z) : result datetime :=
  delta ← timedelta days hours minutes; dt_add d delta.

(** [d.replace(year=y, month=m)] *)
Definition dt_replace (d : datetime) (y m : Z) : result datetime :=
  make_datetime y m (dt_day d) (dt_hour d) (dt_minute d) (dt_second d)
    (dt_microsecond d).

(** [datetime.combine(date.date(), t)] for a time [t] of hour and minute *)
Definition combine (date : datetime) (t : Z * Z) : datetime :=
  mk_datetime (dt_year date) (dt_month date) (dt_day date) (fst t) (snd t) 0 0.

(** The position of an instant on the time line, in microseconds. *)
Definition micros (d : datetime) : Z :=
  ((toordinal d * 86400 + dt_hour d * 3600 + dt_minute d * 60 + dt_second d)
   * 1000000) + dt_microsecond d.

(** [datetime.strptime(s, "%H:%M")]: the hour is [2[0-3]|[0-1]\d|\d], the
    minute is [[0-5]\d|\d], and no text may remain. *)
Definition parse_hour (s : string) : option (Z * string) :=
  match s with
  | String a (String b (String ":" rest)) =>
      let h := Text.int (String a (String b EmptyString)) in
      if Text.is_digit a && Text.is_digit b && (h <=? 23)
      then Some (h, rest) else None
  | String a (String ":" rest) =>
      if Text.is_digit a then Some (Text.digit_value a, rest) else None
  | _ => None
  end.

Definition parse_minute (s : string) : option (Z * string) :=
  match s with
  | String a (String b rest) =>
      let m := Text.int (String a (String b EmptyString)) in
      if Text.is_digit a && Text.is_digit b && (m <=? 59)
      then Some (m, rest)
      else if Text.is_digit a then Some (Text.digit_value a, String b rest)
      else None
  | String a EmptyString =>
      if Text.is_digit a then Some (Text.digit_value a, EmptyString) else None
  | EmptyString => None
  end.

Definition strptime_HM (s : string) : result (Z * Z) :=
  match parse_hour s with
  | Some (h, rest) =>
      match parse_minute rest with
      | Some (m, EmptyString) => Ok (h, m)
      | _ => Raise ValueError
      end
  | None => Raise ValueError
  end.

(** [d.strftime("%Y-%m-%d")] *)
Definition strftime_date (d : datetime) : string :=
  Text.zfill 4 (dt_year d) +:+ "-" +:+ Text.zfill 2 (dt_month d) +:+ "-"
  +:+ Text.zfill 2 (dt_day d).

(** [d.isoformat()] *)
Definition isoformat (d : datetime) : string :=
  strftime_date d +:+ "T" +:+ Text.zfill 2 (dt_hour d) +:+ ":"
  +:+ Text.zfill 2 (dt_minute d) +:+ ":" +:+ Text.zfill 2 (dt_second d)
  +:+ (if dt_microsecond d =? 0 then EmptyString
       else "." +:+ Text.zfill 6 (dt_microsecond d)).

(** [datetime.fromisoformat(s)], on the texts that [isoformat] writes:
    [YYYY-MM-DDTHH:MM:SS] with an optional [.ffffff].  The other ISO 8601
    shapes that the library also reads are rejected here. *)
Definition parse_fraction (s : string) : option Z :=
  match s with
  | EmptyString => Some 0
  | String "." s' =>
      match Text.fixed_digits 6 s' with
      | Some (us, EmptyString) => Some us
      | _ => None
      end
  | _ => None
  end.

Definition parse_isoformat (s : string) : option datetime :=
  '(y, s) ← Text.fixed_digits 4 s;
  s ← Text.expect "-" s;
  '(m, s) ← Text.fixed_digits 2 s;
  s ← Text.expect "-" s;
  '(d, s) ← Text.fixed_digits 2 s;
  s ← Text.expect "T" s;
  '(h, s) ← Text.fixed_digits 2 s;
  s ← Text.expect ":" s;
  '(mi, s) ← Text.fixed_digits 2 s;
  s ← Text.expect ":" s;
  '(sec, s) ← Text.fixed_digits 2 s;
  us ← parse_fraction s;
  Some (mk_datetime y m d h mi sec us).

Definition fromisoformat (s : string) : result datetime :=
  match parse_isoformat s with
  | Some d => if valid_datetimeb d then Ok d else Raise ValueError
  | None => Raise ValueError
  end.

(** ** [TimeParser] ([src/time_parser.py]) *)

Module TimeParser.

(** [re.search(r'(\d{1,2})[:：]?(\d{1,2})?', s)]: the match starts at the
    first digit of [s]; every later item is optional and greedy, so no
    backtracking takes place.  The result is [group(1)] and [group(2)]. *)
Definition skip_colon (s : string) : string :=
  if Text.startswith ":" s then Text.drop 1 s
  else if Text.startswith "：" s then Text.drop (String.length "：") s
  else s.

Definition match_time (s : string) : string * option string :=
  let '(g1, rest) := Text.span_digits 2 s in
  let '(g2, _) := Text.span_digits 2 (skip_colon rest) in
  (g1, match g2 with EmptyString => None | _ => Some g2 end).

Fixpoint search_time (s : string) : option (string * option string) :=
  match s with
  | EmptyString => None
  | String c s' => if Text.is_digit c then Some (match_time s) else search_time s'
  end.

(** [re.search(r'(\d+)' + unit, s)]: the first run of digits that [unit]
    follows; the result is [group(1)]. *)
Fixpoint search_amount (unit : string) (s : string) : option string :=
  match s with
  | EmptyString => None
  | String c s' =>
      if Text.is_digit c
      then
        let '(ds, rest) := Text.span_digits (String.length s) s in
        if Text.startswith unit rest then Some ds else search_amount unit s'
      else search_amount unit s'
  end.

(** [int(m.group(2)) if m.group(2) else 0] *)
Definition minute_of (g2 : option string) : Z :=
  match g2 with
  | Some g => Text.int g
  | None => 0
  end.

Definition _preprocess_time_string (time_str : string) (now : datetime)
  : result string :=
  let time_str := Text.strip time_str in
  let time_str := Text.replace "分钟" "分" (Text.replace "小时" "时" time_str) in
  if Text.contains "今天" time_str
  then Ok (Text.replace "今天" (strftime_date now) time_str)
  else if Text.contains "明天" time_str
  then
    tomorrow ← dt_plus now 1 0 0;
    Ok (Text.replace "明天" (strftime_date tomorrow) time_str)
  else if Text.contains "后天" time_str
  then
    day_after ← dt_plus now 2 0 0;
    Ok (Text.replace "后天" (strftime_date day_after) time_str)
  else Ok time_str.

Definition _get_next_weekday (weekday_num weeks_ahead : Z) (now : datetime)
  : result datetime :=
  let days_ahead := weekday_num - weekday now in
  let days_ahead := if days_ahead <=? 0 then days_ahead + 7 else days_ahead in
  let days_ahead := days_ahead + weeks_ahead * 7 in
  dt_plus now days_ahead 0 0.

(** Only [ValueError] is caught. *)
Definition _combine_date_time (date : datetime) (hour : Z) (time_str : string)
  : result (option datetime) :=
  match strptime_HM (Text.str_of_int hour +:+ ":" +:+ time_str) with
  | Ok t => Ok (Some (combine date t))
  | Raise ValueError => Ok None
  | Raise e => Raise e
  end.

Definition weekday_map : list (string * Z) :=
  [ ("周一", 0); ("周二", 1); ("周三", 2); ("周四", 3); ("周五", 4);
    ("周六", 5); ("周日", 6);
    ("星期一", 0); ("星期二", 1); ("星期三", 2); ("星期四", 3); ("星期五", 4);
    ("星期六", 5); ("星期日", 6);
    ("礼拜一", 0); ("礼拜二", 1); ("礼拜三", 2); ("礼拜四", 3); ("礼拜五", 4);
    ("礼拜六", 5); ("礼拜日", 6) ].

(** The loop of [_parse_weekday_time] over the entries of the map that are
    still to be visited. *)
Fixpoint weekday_loop (entries : list (string * Z)) (time_str : string)
    (now : datetime) : result (option datetime) :=
  match entries with
  | [] => Ok None
  | (weekday_name, weekday_num) :: entries' =>
      if Text.contains weekday_name time_str
      then
        match search_time time_str with
        | Some (g1, g2) =>
            let hour := Text.int g1 in
            let minute := minute_of g2 in
            target_date ← _get_next_weekday weekday_num 0 now;
            _combine_date_time target_date hour (Text.zfill 2 minute)
        | None => weekday_loop entries' time_str now
        end
      else weekday_loop entries' time_str now
  end.

Definition _parse_weekday_time (time_str : string) (now : datetime)
  : result (option datetime) :=
  weekday_loop weekday_map time_str now.

(** The weekday that a phrase asks for: that of the first name of the map,
    in its order, that the phrase contains. *)
Definition requested_weekday (time_str : string) : option Z :=
  snd <$> List.find (fun e => Text.contains e.1 time_str) weekday_map.

Definition _parse_relative_days (time_str : string) (now : datetime)
  : result (option datetime) :=
  match search_amount "天后" time_str with
  | Some g =>
      let days := Text.int g in
      target_date ← dt_plus now days 0 0;
      _combine_date_time target_date (dt_hour now) (Text.zfill 2 (dt_minute now))
  | None =>
      match search_amount "小时后" time_str with
      | Some g =>
          let hours := Text.int g in
          Some <$> dt_plus now 0 hours 0
      | None =>
          match search_amount "分钟后" time_str with
          | Some g =>
              let minutes := Text.int g in
              Some <$> dt_plus now 0 0 minutes
          | None => Ok None
          end
      end
  end.

(** [hour < d.hour or (hour == d.hour and minute <= d.minute)] *)
Definition already_passed (hour minute : Z) (d : datetime) : bool :=
  (hour <? dt_hour d) || ((hour =? dt_hour d) && (minute <=? dt_minute d)).

Definition _parse_specific_time (time_str : string) (now : datetime)
  : result (option datetime) :=
  match search_time time_str with
  | Some (g1, g2) =>
      let hour := Text.int g1 in
      let minute := minute_of g2 in
      target_date ←
        (if already_passed hour minute now then dt_plus now 1 0 0 else Ok now);
      _combine_date_time target_date hour (Text.zfill 2 minute)
  | None => Ok None
  end.

Definition _parse_time_manual (time_str : string) (now : datetime)
  : result (option datetime) :=
  let '(time_str, is_pm) :=
    if Text.contains "上午" time_str
    then (Text.replace "上午" "" time_str, Some false)
    else if Text.contains "下午" time_str || Text.contains "晚上" time_str
    then (Text.replace "晚上" "" (Text.replace "下午" "" time_str), Some true)
    else (time_str, None) in
  match search_time time_str with
  | Some (g1, g2) =>
      let hour := Text.int g1 in
      let minute := minute_of g2 in
      let hour :=
        match is_pm with
        | Some true => if hour <? 12 then hour + 12 else hour
        | Some false => if hour =? 12 then 0 else hour
        | None => hour
        end in
      target_date ←
        (if already_passed hour minute now then dt_plus now 1 0 0 else Ok now);
      _combine_date_time target_date hour (Text.zfill 2 minute)
  | None => Ok None
  end.

Section Resolver.

(** [dateparser.parse], an external library: its answer for a text at the
    instant [now], [None] also when it raises. *)
Variable dateparser_parse : string → datetime → option datetime.

Definition _parse_with_dateparser (time_str : string) (now : datetime)
  : result (option datetime) :=
  match dateparser_parse time_str now with
  | Some result => if dt_ltb now result then Ok (Some result) else Ok None
  | None => Ok None
  end.

Definition parsers : list (string → datetime → result (option datetime)) :=
  [ _parse_weekday_time; _parse_relative_days; _parse_specific_time;
    _parse_with_dateparser; _parse_time_manual ].

(** [for parser in parsers: ... if result and result > datetime.now():
    return result] *)
Fixpoint first_future (ps : list (string → datetime → result (option datetime)))
    (time_str : string) (now : datetime) : result (option datetime) :=
  match ps with
  | [] => Ok None
  | parser :: ps' =>
      r ← parser time_str now;
      match r with
      | Some t => if dt_ltb now t then Ok (Some t) else first_future ps' time_str now
      | None => first_future ps' time_str now
      end
  end.

Definition parse_time_natural (time_str : string) (now : datetime)
  : option datetime :=
  catch
    (processed_time ← _preprocess_time_string time_str now;
     r ← first_future parsers processed_time now;
     match r with
     | Some t => Ok (Some t)
     | None => first_future parsers time_str now
     end)
    (fun _ => None).

End Resolver.

End TimeParser.

(** ** The JSON text of the data file

    [json.dump(obj, f, ensure_ascii=False, indent=2, default=str)] and
    [json.load(f)] on the shape that the plugin stores: an object of
    reminder records, each an object whose values are strings and booleans.
    A dictionary is written in the order of [map_to_list]. *)

Inductive value : Type :=
| VStr (s : string)
| VBool (b : bool).

#[global] Instance value_eq_dec : EqDecision value.
Proof. solve_decision. Defined.

Module Json.

Definition dquote : ascii := "034"%char.
Definition backslash : ascii := "092"%char.
Definition newline : ascii := "010"%char.

Definition hex_char (n : nat) : ascii :=
  if (n <? 10)%nat then ascii_of_nat (48 + n) else ascii_of_nat (87 + n).

(** [ESCAPE_DCT]: the replacement of one character of a string. *)
Definition escape_char (c : ascii) : string :=
  let n := nat_of_ascii c in
  let esc (e : ascii) := String backslash (String e EmptyString) in
  if (n =? 34)%nat then esc dquote
  else if (n =? 92)%nat then esc backslash
  else if (n =? 8)%nat then esc "b"%char
  else if (n =? 12)%nat then esc "f"%char
  else if (n =? 10)%nat then esc "n"%char
  else if (n =? 13)%nat then esc "r"%char
  else if (n =? 9)%nat then esc "t"%char
  else if (n <? 32)%nat
  then String backslash
         (String "u" (String "0" (String "0"
            (String (hex_char (n / 16)) (String (hex_char (n mod 16)) EmptyString)))))
  else String c EmptyString.

Fixpoint escape (s : string) : string :=
  match s with
  | EmptyString => EmptyString
  | String c s' => escape_char c +:+ escape s'
  end.

(** [encode_basestring(s)] *)
Definition quote (s : string) : string :=
  String dquote (escape s +:+ String dquote EmptyString).

Fixpoint spaces (k : nat) (s : string) : string :=
  match k with
  | O => s
  | S k' => String " " (spaces k' s)
  end.

(** A line break and the indentation of nesting level [level]. *)
Definition newline_indent (level : nat) (s : string) : string :=
  String newline (spaces (2 * level) s).

Definition dumps_value (v : value) : string :=
  match v with
  | VStr s => quote s
  | VBool true => "true"
  | VBool false => "false"
  end.

(** The items of a non-empty dictionary at nesting [level], each already
    written as [key: value], and the closing brace. *)
Fixpoint dumps_items (level : nat) (items : list string) : string :=
  match items with
  | [] => newline_indent (level - 1) "}"
  | [item] => item +:+ newline_indent (level - 1) "}"
  | item :: items' =>
      item +:+ String "," (newline_indent level (dumps_items level items'))
  end.

Definition dumps_dict (level : nat) (items : list string) : string :=
  match items with
  | [] => "{}"
  | _ => String "{" (newline_indent level (dumps_items level items))
  end.

Definition dumps_item {V : Type} (dumps_v : V → string) (kv : string * V)
  : string :=
  quote kv.1 +:+ ": " +:+ dumps_v kv.2.

Definition dumps_record (r : gmap string value) : string :=
  dumps_dict 2 (dumps_item dumps_value <$> map_to_list r).

Definition dumps (store : gmap string (gmap string value)) : string :=
  dumps_dict 1 (dumps_item dumps_record <$> map_to_list store).

(** *** Decoding *)

(** [WHITESPACE.match]: blanks, tabs, line feeds and carriage returns. *)
Definition is_ws (c : ascii) : bool :=
  let n := nat_of_ascii c in
  (n =? 32)%nat || (n =? 9)%nat || (n =? 10)%nat || (n =? 13)%nat.

Fixpoint skip_ws (s : string) : string :=
  match s with
  | String c s' => if is_ws c then skip_ws s' else s
  | EmptyString => s
  end.

Definition hex_value (c : ascii) : option Z :=
  let n := nat_of_ascii c in
  if (48 <=? n)%nat && (n <=? 57)%nat then Some (Z.of_nat n - 48)
  else if (97 <=? n)%nat && (n <=? 102)%nat then Some (Z.of_nat n - 87)
  else if (65 <=? n)%nat && (n <=? 70)%nat then Some (Z.of_nat n - 55)
  else None.

(** [_decode_uXXXX] *)
Definition decode_hex4 (a b c d : ascii) : option Z :=
  x3 ← hex_value a; x2 ← hex_value b; x1 ← hex_value c; x0 ← hex_value d;
  Some (((x3 * 16 + x2) * 16 + x1) * 16 + x0).

Definition byte (n : Z) : ascii := ascii_of_nat (Z.to_nat n).

(** [chr(uni)] as UTF-8; a surrogate on its own has no UTF-8 form. *)
Definition utf8 (uni : Z) : option string :=
  if uni <? 128 then Some (String (byte uni) EmptyString)
  else if uni <? 2048
  then Some (String (byte (192 + uni / 64))
               (String (byte (128 + uni mod 64)) EmptyString))
  else if (55296 <=? uni) && (uni <=? 57343) then None
  else if uni <? 65536
  then Some (String (byte (224 + uni / 4096))
               (String (byte (128 + uni / 64 mod 64))
                  (String (byte (128 + uni mod 64)) EmptyString)))
  else Some (String (byte (240 + uni / 262144))
               (String (byte (128 + uni / 4096 mod 64))
                  (String (byte (128 + uni / 64 mod 64))
                     (String (byte (128 + uni mod 64)) EmptyString)))).

(** [BACKSLASH]: the one-letter escapes. *)
Definition simple_escape (c : ascii) : option ascii :=
  let n := nat_of_ascii c in
  if (n =? 34)%nat then Some dquote
  else if (n =? 92)%nat then Some backslash
  else if (n =? 47)%nat then Some "/"%char
  else if (n =? 98)%nat then Some "008"%char
  else if (n =? 102)%nat then Some "012"%char
  else if (n =? 110)%nat then Some "010"%char
  else if (n =? 114)%nat then Some "013"%char
  else if (n =? 116)%nat then Some "009"%char
  else None.

(** The low half of a surrogate pair, when [s] starts with its escape. *)
Definition low_surrogate (s : string) : option (Z * string) :=
  match s with
  | String b (String u (String w (String x (String y (String z rest))))) =>
      if Ascii.eqb b backslash && Ascii.eqb u "u"
      then
        match decode_hex4 w x y z with
        | Some uni2 =>
            if (56320 <=? uni2) && (uni2 <=? 57343) then Some (uni2, rest)
            else None
        | None => None
        end
      else None
  | _ => None
  end.

(** [py_scanstring(s, end, strict=True)], from the character after the
    opening quote: the decoded string and the text after the closing quote. *)
Fixpoint scanstring (s : string) : option (string * string) :=
  match s with
  | EmptyString => None
  | String c s' =>
      if Ascii.eqb c dquote then Some (EmptyString, s')
      else if Ascii.eqb c backslash
      then
        match s' with
        | EmptyString => None
        | String e s'' =>
            if Ascii.eqb e "u"
            then
              match s'' with
              | String w (String x (String y (String z rest))) =>
                  match decode_hex4 w x y z with
                  | Some uni =>
                      if (55296 <=? uni) && (uni <=? 56319)
                      then
                        match rest with
                        | String _ (String _ (String _ (String _
                            (String _ (String _ rest'))))) =>
                            match low_surrogate rest with
                            | Some (uni2, _) =>
                                let uni :=
                                  65536 + ((uni - 55296) * 1024 + (uni2 - 56320)) in
                                ch ← utf8 uni;
                                '(t, r) ← scanstring rest';
                                Some (ch +:+ t, r)
                            | None => None
                            end
                        | _ => None
                        end
                      else
                        ch ← utf8 uni;
                        '(t, r) ← scanstring rest;
                        Some (ch +:+ t, r)
                  | None => None
                  end
              | _ => None
              end
            else
              match simple_escape e with
              | Some ch => '(t, r) ← scanstring s''; Some (String ch t, r)
              | None => None
              end
        end
      else if (nat_of_ascii c <? 32)%nat then None
      else '(t, r) ← scanstring s'; Some (String c t, r)
  end.

(** The loop of [JSONObject], from the character after the opening quote
    of a key. *)
Fixpoint parse_pairs {V : Type} (parse_v : string → option (V * string))
    (fuel : nat) (s : string) : option (list (string * V) * string) :=
  match fuel with
  | O => None
  | S fuel' =>
      '(key, s) ← scanstring s;
      s ← Text.expect ":" (skip_ws s);
      '(v, s) ← parse_v (skip_ws s);
      match skip_ws s with
      | String c s' =>
          if Ascii.eqb c "}" then Some ([(key, v)], s')
          else if Ascii.eqb c ","
          then
            s'' ← Text.expect dquote (skip_ws s');
            '(rest, s3) ← parse_pairs parse_v fuel' s'';
            Some ((key, v) :: rest, s3)
          else None
      | EmptyString => None
      end
  end.

(** [dict(pairs)]: a later pair replaces an earlier one of the same key. *)
Definition dict_of_pairs {V : Type} (pairs : list (string * V)) : gmap string V :=
  foldl (fun m kv => <[kv.1 := kv.2]> m) ∅ pairs.

(** [JSONObject], from the opening brace. *)
Definition parse_object {V : Type} (parse_v : string → option (V * string))
    (s : string) : option (gmap string V * string) :=
  match s with
  | String c s1 =>
      if Ascii.eqb c "{"
      then
        match skip_ws s1 with
        | String c2 s2 =>
            if Ascii.eqb c2 "}" then Some (∅, s2)
            else if Ascii.eqb c2 dquote
            then
              '(pairs, rest) ← parse_pairs parse_v (String.length s2) s2;
              Some (dict_of_pairs pairs, rest)
            else None
        | EmptyString => None
        end
      else None
  | EmptyString => None
  end.

(** A value of a record: a string, [true] or [false]. *)
Definition parse_value (s : string) : option (value * string) :=
  match s with
  | String c s' =>
      if Ascii.eqb c dquote
      then '(t, r) ← scanstring s'; Some (VStr t, r)
      else if Text.startswith "true" s then Some (VBool true, Text.drop 4 s)
      else if Text.startswith "false" s then Some (VBool false, Text.drop 5 s)
      else None
  | EmptyString => None
  end.

Definition parse_record (s : string) : option (gmap string value * string) :=
  parse_object parse_value s.

(** [json.load]: any failure is an exception of the decoder. *)
Definition loads (s : string) : result (gmap string (gmap string value)) :=
  match parse_object parse_record (skip_ws s) with
  | Some (store, rest) =>
      match skip_ws rest with
      | EmptyString => Ok store
      | _ => Raise ValueError
      end
  | None => Raise ValueError
  end.

End Json.

(** ** Reminder records *)

(** [str(v)] *)
Definition str_of_value (v : value) : string :=
  match v with
  | VStr s => s
  | VBool true => "True"
  | VBool false => "False"
  end.

(** The truth value of [v] in a condition. *)
Definition truthy (v : value) : bool :=
  match v with
  | VStr EmptyString => false
  | VStr _ => true
  | VBool b => b
  end.

(** [d[key]] *)
Definition getitem (d : gmap string value) (key : string) : result value :=
  match d !! key with
  | Some v => Ok v
  | None => Raise KeyError
  end.

(** [datetime.fromisoformat(v)] *)
Definition fromisoformat_value (v : value) : result datetime :=
  match v with
  | VStr s => fromisoformat s
  | VBool _ => Raise TypeError
  end.

(** [d.get('active', True)] as a condition *)
Definition is_active (d : gmap string value) : bool :=
  truthy (default (VBool true) (d !! "active")).

(** [datetime.fromisoformat(d['target_time'])] *)
Definition target_time_of (d : gmap string value) : result datetime :=
  v ← getitem d "target_time"; fromisoformat_value v.

(** ** [ReminderManager] ([src/reminder.py]) *)

(** A handle of [running_tasks]: the task sleeps until [wake] (an instant
    in microseconds), or it has run to its end. *)
Inductive task : Type :=
| Pending (wake : Z)
| Finished.

Record state : Type := mk_state {
  reminders : gmap string (gmap string value);
  running_tasks : gmap string task;
  (** the text of [reminders.json], when the file exists *)
  data_file : option string
}.

Definition with_reminders (st : state)
    (rs : gmap string (gmap string value)) : state :=
  mk_state rs (running_tasks st) (data_file st).

Definition with_tasks (st : state) (ts : gmap string task) : state :=
  mk_state (reminders st) ts (data_file st).

Module ReminderManager.

(** [ReminderManager(data_file)] on a file system that holds [file]. *)
Definition init (file : option string) : state := mk_state ∅ ∅ file.

Definition load_reminders (st : state) : state :=
  match data_file st with
  | Some text =>
      catch (rs ← Json.loads text; Ok (with_reminders st rs))
        (fun _ => with_reminders st ∅)
  | None => st
  end.

Definition save_reminders (st : state) : state :=
  mk_state (reminders st) (running_tasks st) (Some (Json.dumps (reminders st))).

Definition get_reminder (reminder_id : string) (st : state)
  : option (gmap string value) :=
  reminders st !! reminder_id.

Definition add_reminder (reminder_id : string)
    (reminder_data : gmap string value) (st : state) : state :=
  with_reminders st (<[reminder_id := reminder_data]> (reminders st)).

Definition remove_reminder (reminder_id : string) (st : state) : state :=
  with_reminders st (delete reminder_id (reminders st)).

(** [self.reminders[reminder_id].update(reminder_data)] *)
Definition update_reminder (reminder_id : string)
    (reminder_data : gmap string value) (st : state) : state :=
  match reminders st !! reminder_id with
  | Some d => with_reminders st (<[reminder_id := reminder_data ∪ d]> (reminders st))
  | None => st
  end.

Definition get_user_reminders (user_id : string) (st : state)
  : gmap string (gmap string value) :=
  filter (fun kv => kv.2 !! "sender_id" = Some (VStr user_id)) (reminders st).

Definition cancel_task (reminder_id : string) (st : state) : state :=
  with_tasks st (delete reminder_id (running_tasks st)).

Definition add_task (reminder_id : string) (t : task) (st : state) : state :=
  with_tasks st (<[reminder_id := t]> (running_tasks st)).

(** [reminder_data[key] = v] where [reminder_data] is the dictionary that
    [get_reminder] returned: the assignment changes the record in the
    store. *)
Definition setitem (reminder_id key : string) (v : value) (st : state) : state :=
  with_reminders st (alter (insert key v) reminder_id (reminders st)).

End ReminderManager.

(** ** [QReminderPlugin] ([src/plugin.py]) *)

(** The calling context of a command: [str(query.launcher_id)],
    [str(query.sender_id)] and
    [str(query.launcher_type).split(".")[-1].lower()]. *)
Record query : Type := mk_query {
  launcher_id : string;
  sender_id : string;
  target_type : string
}.

Definition nl : string := String Json.newline EmptyString.

(** [d.strftime("%Y-%m-%d %H:%M")] *)
Definition strftime_minute (d : datetime) : string :=
  strftime_date d +:+ " " +:+ Text.zfill 2 (dt_hour d) +:+ ":"
  +:+ Text.zfill 2 (dt_minute d).

(** [str(n)] *)
Definition str_of_Z (n : Z) : string :=
  if n <? 0 then String "-" (Text.str_of_int (- n)) else Text.str_of_int n.

Module Plugin.

Definition _schedule_reminder (reminder_id : string)
    (reminder_data : gmap string value) (now : datetime) (st : state) : state :=
  catch
    (target_time ← target_time_of reminder_data;
     let delay := micros target_time - micros now in
     if delay <=? 0 then Ok st
     else Ok (ReminderManager.add_task reminder_id
                (Pending (micros now + delay)) st))
    (fun _ => st).

(** The loop of [initialize] over the items that are still to be visited.
    Nothing catches an exception here. *)
Fixpoint restore (items : list (string * gmap string value)) (now : datetime)
    (st : state) : result state :=
  match items with
  | [] => Ok st
  | (reminder_id, reminder_data) :: items' =>
      if is_active reminder_data
      then
        target_time ← target_time_of reminder_data;
        if dt_ltb now target_time
        then restore items' now (_schedule_reminder reminder_id reminder_data now st)
        else _ ← getitem reminder_data "content"; restore items' now st
      else restore items' now st
  end.

Definition initialize (now : datetime) (st : state) : result state :=
  let st := ReminderManager.load_reminders st in
  restore (map_to_list (reminders st)) now st.

Definition next_month (target_time : datetime) : result datetime :=
  if dt_month target_time =? 12
  then dt_replace target_time (dt_year target_time + 1) 1
  else dt_replace target_time (dt_year target_time) (dt_month target_time + 1).

(** The next due time, [None] on the final [else: return]. *)
Definition next_time_of (repeat_type : option value) (target_time : datetime)
  : result (option datetime) :=
  if decide (repeat_type = Some (VStr "每天"))
  then Some <$> dt_plus target_time 1 0 0
  else if decide (repeat_type = Some (VStr "每周"))
  then Some <$> dt_plus target_time 7 0 0
  else if decide (repeat_type = Some (VStr "每月"))
  then Some <$> next_month target_time
  else Ok None.

(** The body of the [try] of [_handle_repeat_reminder]. *)
Definition repeat_body (reminder_id : string)
    (reminder_data : gmap string value) (now : datetime) (st : state)
  : result state :=
  let repeat_type := reminder_data !! "repeat_type" in
  target_time ← target_time_of reminder_data;
  next ← next_time_of repeat_type target_time;
  match next with
  | None => Ok st
  | Some next_time =>
      let v := VStr (isoformat next_time) in
      let st := ReminderManager.setitem reminder_id "target_time" v st in
      let reminder_data := <["target_time" := v]> reminder_data in
      let st := ReminderManager.update_reminder reminder_id reminder_data st in
      let st := ReminderManager.save_reminders st in
      Ok (_schedule_reminder reminder_id reminder_data now st)
  end.

Definition _handle_repeat_reminder (reminder_id : string)
    (reminder_data : gmap string value) (now : datetime) (st : state) : state :=
  catch (repeat_body reminder_id reminder_data now st) (fun _ => st).

(** [_reminder_task] once [asyncio.sleep(delay)] has returned.  The message
    goes to the delivery adapter, which is outside this model;
    [_send_reminder_message] catches its own exceptions. *)
Definition _reminder_task (reminder_id : string) (now : datetime) (st : state)
  : state :=
  match ReminderManager.get_reminder reminder_id st with
  | None => st
  | Some reminder_data =>
      if decide (reminder_data = ∅) then st
      else if decide (reminder_data !! "repeat_type" = Some (VStr "不重复"))
      then ReminderManager.save_reminders
             (ReminderManager.remove_reminder reminder_id st)
      else _handle_repeat_reminder reminder_id reminder_data now st
  end.

(** A pending task of [running_tasks] wakes up: its handle is finished
    unless the run stores a new one. *)
Definition fire (reminder_id : string) (now : datetime) (st : state)
  : option state :=
  match running_tasks st !! reminder_id with
  | Some (Pending wake) =>
      if wake <=? micros now
      then Some (_reminder_task reminder_id now
                   (ReminderManager.add_task reminder_id Finished st))
      else None
  | _ => None
  end.

Section Create.

Variable dateparser_parse : string → datetime → option datetime.

(** [int(d.timestamp())]: the seconds since the epoch of a local time, a
    matter of the time zone of the host. *)
Variable timestamp : datetime → Z.

Definition weekday_names : list string :=
  [ "星期一"; "星期二"; "星期三"; "星期四"; "星期五"; "星期六"; "星期日" ].

Definition unresolvable_reply (time_description : string) : string :=
  "⚠️ 无法理解时间 '" +:+ time_description +:+ "'" +:+ nl +:+ nl
  +:+ "支持的格式示例：" +:+ nl
  +:+ "• 相对时间：30分钟后、2小时后、3天后" +:+ nl
  +:+ "• 具体日期：明天下午3点、后天晚上8点" +:+ nl
  +:+ "• 星期时间：本周六晚上9点、下周一上午10点" +:+ nl
  +:+ "• 标准格式：2025-06-08 15:30".

Definition in_past_reply : string := "⚠️ 设置的时间已经过去了，请重新设置！".

Definition created_reply (target_time : datetime) (content repeat_type : string)
  : string :=
  let time_str_formatted :=
    Text.zfill 4 (dt_year target_time) +:+ "年"
    +:+ Text.zfill 2 (dt_month target_time) +:+ "月"
    +:+ Text.zfill 2 (dt_day target_time) +:+ "日 "
    +:+ Text.zfill 2 (dt_hour target_time) +:+ ":"
    +:+ Text.zfill 2 (dt_minute target_time) in
  let weekday_name :=
    default EmptyString (weekday_names !! Z.to_nat (weekday target_time)) in
  let repeat_info :=
    if String.eqb repeat_type "不重复" then EmptyString
    else nl +:+ "🔄 重复：" +:+ repeat_type in
  "✅ 提醒设置成功！" +:+ nl +:+ "📅 时间：" +:+ time_str_formatted +:+ " ("
  +:+ weekday_name +:+ ")" +:+ nl +:+ "📝 内容：" +:+ content +:+ repeat_info.

(** The repeat type that the description announces, and the description
    without it. *)
Definition detect_repeat (time_description repeat_type : string)
  : string * string :=
  let unset := String.eqb repeat_type "不重复" in
  if Text.contains "每天" time_description && unset
  then ("每天", Text.replace "每天" "" time_description)
  else if Text.contains "每周" time_description && unset
  then ("每周", Text.replace "每周" "" time_description)
  else if Text.contains "每月" time_description && unset
  then ("每月", Text.replace "每月" "" time_description)
  else (repeat_type, time_description).

(** The description that reaches the resolver. *)
Definition clean_description (time_description repeat_type : string) : string :=
  (detect_repeat
     (Text.strip (Text.replace "这里" "" (Text.replace "设置" "" time_description)))
     repeat_type).2.

Definition new_reminder (reminder_id : string) (q : query)
    (content repeat_type : string) (target_time created_at : datetime)
  : gmap string value :=
  list_to_map
    [ ("id", VStr reminder_id);
      ("sender_id", VStr (sender_id q));
      ("target_id", VStr (launcher_id q));
      ("target_type", VStr (target_type q));
      ("content", VStr content);
      ("target_time", VStr (isoformat target_time));
      ("repeat_type", VStr repeat_type);
      ("active", VBool true);
      ("created_at", VStr (isoformat created_at)) ].

(** [set_reminder_llm]: the phrase is resolved at the instant [now]; the
    clock reads that follow see the instant [later]. *)
Definition set_reminder_llm (q : query) (content time_description repeat_type : string)
    (now later : datetime) (st : state) : string * state :=
  let time_description :=
    Text.strip (Text.replace "这里" "" (Text.replace "设置" "" time_description)) in
  let '(repeat_type, time_description) :=
    detect_repeat time_description repeat_type in
  match TimeParser.parse_time_natural dateparser_parse time_description now with
  | None => (unresolvable_reply time_description, st)
  | Some target_time =>
      if dt_leb target_time later then (in_past_reply, st)
      else
        let reminder_id := sender_id q +:+ "_" +:+ str_of_Z (timestamp later) in
        let reminder_data :=
          new_reminder reminder_id q content repeat_type target_time later in
        let st := ReminderManager.add_reminder reminder_id reminder_data st in
        let st := ReminderManager.save_reminders st in
        let st := _schedule_reminder reminder_id reminder_data later st in
        (created_reply target_time content repeat_type, st)
  end.

End Create.

End Plugin.

(** ** [MessageHandler] ([src/handlers.py]) *)

Module MessageHandler.

(** [self._schedule_reminder(reminder_id, reminder_data)]: the class
    [MessageHandler] defines no [_schedule_reminder] (the method of that
    name belongs to [QReminderPlugin]), so reading the attribute raises
    [AttributeError]. *)
Definition _schedule_reminder (reminder_id : string)
    (reminder_data : gmap string value) (st : state) : result state :=
  Raise AttributeError.

(** One line of the list: the status mark, the time and the content. *)
Definition list_line (data : gmap string value) : result string :=
  target_time ← target_time_of data;
  let time_str := strftime_minute target_time in
  let status := if is_active data then "✅" else "⏸️" in
  content ← getitem data "content";
  Ok (status +:+ " " +:+ time_str +:+ " - " +:+ str_of_value content +:+ nl).

Fixpoint list_lines (items : list (string * gmap string value))
    (response : string) : result string :=
  match items with
  | [] => Ok response
  | (_, data) :: items' =>
      line ← list_line data; list_lines items' (response +:+ line)
  end.

(** Nothing catches an exception here. *)
Definition _handle_list_reminders (sender : string) (st : state)
  : result string :=
  let user_reminders := ReminderManager.get_user_reminders sender st in
  if decide (user_reminders = ∅) then Ok "📝 您当前没有任何提醒"
  else list_lines (map_to_list user_reminders) ("📋 您的提醒列表：" +:+ nl +:+ nl).

(** [reminder_data['sender_id'] != sender_id] *)
Definition not_owner (reminder_data : gmap string value) (sender : string)
  : result bool :=
  owner ← getitem reminder_data "sender_id";
  Ok (bool_decide (owner ≠ VStr sender)).

Definition _handle_delete_reminder (msg sender : string) (st : state)
  : string * state :=
  let reminder_id := Text.strip (Text.replace "删除提醒" "" msg) in
  if String.eqb reminder_id "" then ("❌ 请指定要删除的提醒ID", st)
  else
    match ReminderManager.get_reminder reminder_id st with
    | None => ("❌ 未找到指定的提醒", st)
    | Some reminder_data =>
        if decide (reminder_data = ∅) then ("❌ 未找到指定的提醒", st)
        else
          match not_owner reminder_data sender with
          | Raise _ => ("❌ 删除提醒失败，请重试", st)
          | Ok true => ("❌ 您没有权限删除此提醒", st)
          | Ok false =>
              let st := ReminderManager.cancel_task reminder_id st in
              let st := ReminderManager.remove_reminder reminder_id st in
              let st := ReminderManager.save_reminders st in
              match getitem reminder_data "content" with
              | Ok content => ("✅ 已删除提醒：" +:+ str_of_value content, st)
              | Raise _ => ("❌ 删除提醒失败，请重试", st)
              end
          end
    end.

(** The part of [_toggle_reminder] that follows the saved change of
    [active]; an exception leaves the state as it is at that point. *)
Definition toggle_task (reminder_id : string) (reminder_data : gmap string value)
    (active : bool) (now : datetime) (st : state) : result string * state :=
  if active
  then
    match target_time_of reminder_data with
    | Raise e => (Raise e, st)
    | Ok target_time =>
        if dt_ltb now target_time
        then
          match _schedule_reminder reminder_id reminder_data st with
          | Raise e => (Raise e, st)
          | Ok st' =>
              (content ← getitem reminder_data "content";
               Ok ("✅ 已恢复提醒：" +:+ str_of_value content), st')
          end
        else
          (content ← getitem reminder_data "content";
           Ok ("✅ 已恢复提醒：" +:+ str_of_value content), st)
    end
  else
    let st := ReminderManager.cancel_task reminder_id st in
    (content ← getitem reminder_data "content";
     Ok ("⏸️ 已暂停提醒：" +:+ str_of_value content), st).

Definition _toggle_reminder (msg sender : string) (active : bool)
    (now : datetime) (st : state) : string * state :=
  let reminder_id :=
    Text.strip (Text.replace "恢复提醒" "" (Text.replace "暂停提醒" "" msg)) in
  if String.eqb reminder_id "" then ("❌ 请指定要操作的提醒ID", st)
  else
    match ReminderManager.get_reminder reminder_id st with
    | None => ("❌ 未找到指定的提醒", st)
    | Some reminder_data =>
        if decide (reminder_data = ∅) then ("❌ 未找到指定的提醒", st)
        else
          match not_owner reminder_data sender with
          | Raise _ => ("❌ 操作失败，请重试", st)
          | Ok true => ("❌ 您没有权限操作此提醒", st)
          | Ok false =>
              let st := ReminderManager.setitem reminder_id "active" (VBool active) st in
              let reminder_data := <["active" := VBool active]> reminder_data in
              let st := ReminderManager.update_reminder reminder_id reminder_data st in
              let st := ReminderManager.save_reminders st in
              let '(reply, st) := toggle_task reminder_id reminder_data active now st in
              (catch reply (fun _ => "❌ 操作失败，请重试"), st)
          end
    end.

Definition _handle_pause_reminder (msg sender : string) (now : datetime)
    (st : state) : string * state :=
  _toggle_reminder msg sender false now st.

Definition _handle_resume_reminder (msg sender : string) (now : datetime)
    (st : state) : string * state :=
  _toggle_reminder msg sender true now st.

End MessageHandler.

(** ** Notions that the statements use *)

Definition leap_days (b : bool) : Z := if b then 1 else 0.

Definition valid_time (d : datetime) : Prop :=
  0 ≤ dt_hour d ≤ 23 ∧ 0 ≤ dt_minute d ≤ 59 ∧ 0 ≤ dt_second d ≤ 59
  ∧ 0 ≤ dt_microsecond d ≤ 999999.

Definition valid_date_of (d : datetime) : Prop :=
  valid_date (dt_year d) (dt_month d) (dt_day d).

(** All the characters of [s] are digits. *)
Fixpoint all_digits (s : string) : bool :=
  match s with
  | EmptyString => true
  | String c s' => Text.is_digit c && all_digits s'
  end.

(** The due time of the record of [reminder_id], when it can be read. *)
Definition due_at (reminder_id : string) (st : state) : option datetime :=
  match reminders st !! reminder_id with
  | Some data =>
      match target_time_of data with
      | Ok t => Some t
      | Raise _ => None
      end
  | None => None
  end.

(** The year and the month that follow those of [d]. *)
Definition following_month (d : datetime) : Z * Z :=
  if dt_month d =? 12 then (dt_year d + 1, 1) else (dt_year d, dt_month d + 1).

(** Sunday 2025-06-08, 14:00. *)
Definition sunday_afternoon : datetime := mk_datetime 2025 6 8 14 0 0 0.

Definition no_dateparser : string → datetime → option datetime :=
  fun _ _ => None.

Definition saturday_morning : datetime := mk_datetime 2025 6 14 8 0 0 0.

(** A monthly reminder that is due on 2025-01-31 at 09:00. *)
Definition january_31 : datetime := mk_datetime 2025 1 31 9 0 0 0.

Definition monthly_record : gmap string value :=
  list_to_map
    [ ("id", VStr "u1_1"); ("sender_id", VStr "u1"); ("target_id", VStr "g1");
      ("target_type", VStr "group"); ("content", VStr "rent");
      ("target_time", VStr "2025-01-31T09:00:00");
      ("repeat_type", VStr "每月"); ("active", VBool true);
      ("created_at", VStr "2025-01-01T08:00:00") ].

Definition monthly_state : state :=
  mk_state {[ "u1_1" := monthly_record ]} ∅ None.

(** The pairing of records and tasks as the specification words it: an
    active record has a live task, a paused one has none. *)
Definition tasks_paired (st : state) : Prop :=
  ∀ reminder_id data,
    reminders st !! reminder_id = Some data →
    (data !! "active" = Some (VBool true) →
     ∃ wake, running_tasks st !! reminder_id = Some (Pending wake))
    ∧ (data !! "active" = Some (VBool false) →
       running_tasks st !! reminder_id = None).

(** The pairing that the code keeps, at one reminder id: a record that is
    not active has no handle, and a live task belongs to a record of the
    store that is active. *)
Definition consistent_at (reminder_id : string) (st : state) : Prop :=
  (∀ data, reminders st !! reminder_id = Some data →
           is_active data = false →
           running_tasks st !! reminder_id = None)
  ∧ (∀ wake, running_tasks st !! reminder_id = Some (Pending wake) →
             ∃ data, reminders st !! reminder_id = Some data
                     ∧ is_active data = true).

Definition tasks_consistent (st : state) : Prop :=
  ∀ reminder_id, consistent_at reminder_id st.

(** The states that the public operations reach: startup replay, create,
    delete, pause and resume, and the firing of a due task. *)
Inductive reachable : state → Prop :=
| reach_startup now file st :
    Plugin.initialize now (ReminderManager.init file) = Ok st →
    reachable st
| reach_create dateparser_parse timestamp q content time_description
    repeat_type now later st :
    reachable st →
    reachable (Plugin.set_reminder_llm dateparser_parse timestamp q content
                 time_description repeat_type now later st).2
| reach_delete msg sender st :
    reachable st →
    reachable (MessageHandler._handle_delete_reminder msg sender st).2
| reach_toggle msg sender active now st :
    reachable st →
    reachable (MessageHandler._toggle_reminder msg sender active now st).2
| reach_fire reminder_id now st st' :
    reachable st →
    Plugin.fire reminder_id now st = Some st' →
    reachable st'.

(** An active reminder whose due time, 2025-06-01 09:00, has passed on
    Sunday 2025-06-08. *)
Definition expired_record : gmap string value :=
  list_to_map
    [ ("id", VStr "u1_1"); ("sender_id", VStr "u1"); ("target_id", VStr "g1");
      ("target_type", VStr "group"); ("content", VStr "meeting");
      ("target_time", VStr "2025-06-01T09:00:00");
      ("repeat_type", VStr "不重复"); ("active", VBool true);
      ("created_at", VStr "2025-05-30T08:00:00") ].

Definition expired_file : string := Json.dumps {[ "u1_1" := expired_record ]}.

Definition expired_state : state :=
  mk_state {[ "u1_1" := expired_record ]} ∅ (Some expired_file).

(** A record of an older data file, without the [active] field, due on
    Wednesday 2025-06-11 at 14:00. *)
Definition legacy_record : gmap string value :=
  list_to_map
    [ ("id", VStr "u1_2"); ("sender_id", VStr "u1"); ("target_id", VStr "g1");
      ("target_type", VStr "group"); ("content", VStr "meeting");
      ("target_time", VStr "2025-06-11T14:00:00");
      ("repeat_type", VStr "不重复") ].

Definition legacy_state : state :=
  mk_state ∅ ∅ (Some (Json.dumps {[ "u1_2" := legacy_record ]})).

(** An active reminder due on Wednesday 2025-06-11 at 14:00, with its
    task. *)
Definition wednesday_afternoon : datetime := mk_datetime 2025 6 11 14 0 0 0.

Definition pending_record : gmap string value :=
  list_to_map
    [ ("id", VStr "u1_3"); ("sender_id", VStr "u1"); ("target_id", VStr "g1");
      ("target_type", VStr "group"); ("content", VStr "meeting");
      ("target_time", VStr "2025-06-11T14:00:00");
      ("repeat_type", VStr "不重复"); ("active", VBool true);
      ("created_at", VStr "2025-06-08T13:00:00") ].

Definition pending_state : state :=
  mk_state {[ "u1_3" := pending_record ]}
    {[ "u1_3" := Pending (micros wednesday_afternoon) ]} None.

(** A text that starts with a character other than white space. *)
Definition starts_solid (s : string) : Prop :=
  ∃ c s', s = String c s' ∧ Json.is_ws c = false.

(** The text of an item after the opening quote of its key, and that of
    the items of a dictionary, up to the closing brace and the text [rest]
    that follows. *)
Definition item_text {V : Type} (dumps_v : V → string) (k : string) (v : V)
    (tail : string) : string :=
  Json.escape k
  +:+ String Json.dquote (String ":" (String " " (dumps_v v +:+ tail))).

Fixpoint items_text {V : Type} (dumps_v : V → string) (level : nat)
    (k : string) (v : V) (pairs : list (string * V)) (rest : string) : string :=
  match pairs with
  | [] => item_text dumps_v k v (Json.newline_indent (level - 1) "}" +:+ rest)
  | (k', v') :: pairs' =>
      item_text dumps_v k v
        (String ","
           (Json.newline_indent level
              (String Json.dquote (items_text dumps_v level k' v' pairs' rest))))
  end.

(** [strptime] reads back the hour [h] and the minute [m] from the text
    that [_combine_date_time] builds for them. *)
Definition strptime_reads (h m : Z) : bool :=
  match strptime_HM (Text.str_of_int h +:+ ":" +:+ Text.zfill 2 m) with
  | Ok (h', m') => (h' =? h) && (m' =? m)
  | Raise _ => false
  end.

(** * Facts *)

Lemma bind_Ok {A B : Type} (m : result A) (f : A → result B) (b : B) :
  m ≫= f = Ok b → ∃ a, m = Ok a ∧ f a = Ok b.
Proof. destruct m as [a|e]; simpl; [eauto | discriminate]. Qed.

Lemma fmap_Ok {A B : Type} (m : result A) (f : A → B) (b : B) :
  f <$> m = Ok b → ∃ a, m = Ok a ∧ b = f a.
Proof. destruct m as [a|e]; simpl; [intros [= <-]; eauto | discriminate]. Qed.

(** ** The calendar *)

Lemma is_leap_true_iff y :
  _is_leap y = true ↔ y mod 4 = 0 ∧ (y mod 100 ≠ 0 ∨ y mod 400 = 0).
Proof.
  unfold _is_leap.
  rewrite andb_true_iff, orb_true_iff, negb_true_iff, !Z.eqb_eq, Z.eqb_neq.
  tauto.
Qed.

Lemma is_leap_false_iff y :
  _is_leap y = false ↔ ¬ (y mod 4 = 0 ∧ (y mod 100 ≠ 0 ∨ y mod 400 = 0)).
Proof.
  rewrite <- is_leap_true_iff. destruct (_is_leap y); split; congruence.
Qed.

Lemma days_before_year_succ y :
  _days_before_year (y + 1) = _days_before_year y + 365 + leap_days (_is_leap y).
Proof.
  unfold _days_before_year, leap_days.
  destruct (_is_leap y) eqn:E.
  - apply is_leap_true_iff in E. Z.div_mod_to_equations; lia.
  - apply is_leap_false_iff in E. Z.div_mod_to_equations; lia.
Qed.

Lemma days_before_year_mono y1 y2 :
  y1 ≤ y2 → _days_before_year y1 ≤ _days_before_year y2.
Proof.
  intros H. unfold _days_before_year. Z.div_mod_to_equations; lia.
Qed.

Ltac eval_months :=
  repeat match goal with
    | |- context [month_offset ?b ?k] =>
        let v := eval vm_compute in (month_offset b k) in
        change (month_offset b k) with v
    | |- context [month_length ?b ?k] =>
        let v := eval vm_compute in (month_length b k) in
        change (month_length b k) with v
    | H : context [month_length ?b ?k] |- _ =>
        let v := eval vm_compute in (month_length b k) in
        change (month_length b k) with v in H
    end.

Lemma month_day_spec leap n m d :
  0 ≤ n < 365 + leap_days leap →
  month_day leap n = (m, d) →
  1 ≤ m ≤ 12 ∧ 1 ≤ d ≤ month_length leap m ∧ month_offset leap m + d = n + 1.
Proof.
  intros Hn. unfold month_day. rewrite Z.shiftr_div_pow2 by lia.
  change (2 ^ 5) with 32.
  assert (1 ≤ (n + 50) / 32 ≤ 12) as Hq.
  { unfold leap_days in Hn. destruct leap; Z.div_mod_to_equations; lia. }
  assert (32 * ((n + 50) / 32) ≤ n + 50 < 32 * ((n + 50) / 32) + 32) as Hb.
  { Z.div_mod_to_equations; lia. }
  set (q := (n + 50) / 32) in *. clearbody q.
  assert (q = 1 ∨ q = 2 ∨ q = 3 ∨ q = 4 ∨ q = 5 ∨ q = 6 ∨ q = 7 ∨ q = 8
          ∨ q = 9 ∨ q = 10 ∨ q = 11 ∨ q = 12) as Hc by lia.
  unfold leap_days in Hn.
  destruct leap; repeat (destruct Hc as [-> | Hc]); try subst q;
    repeat match goal with
      | |- context [Z.pos ?a - 1] =>
          let v := eval vm_compute in (Z.pos a - 1) in
          change (Z.pos a - 1) with v
      end;
    eval_months;
    match goal with
    | |- context [?a <? ?b] => destruct (Z.ltb_spec a b)
    end;
    intros [= <- <-]; eval_months; lia.
Qed.

Lemma year_offset_bound leap m d :
  1 ≤ m ≤ 12 → 1 ≤ d ≤ month_length leap m →
  1 ≤ month_offset leap m + d ≤ 365 + leap_days leap.
Proof.
  intros Hm Hd.
  assert (m = 1 ∨ m = 2 ∨ m = 3 ∨ m = 4 ∨ m = 5 ∨ m = 6 ∨ m = 7 ∨ m = 8
          ∨ m = 9 ∨ m = 10 ∨ m = 11 ∨ m = 12) as Hc by lia.
  destruct leap; repeat (destruct Hc as [-> | Hc]); try subst m;
    unfold leap_days; eval_months; lia.
Qed.

Lemma month_offset_next leap m1 m2 :
  1 ≤ m1 → m1 < m2 → m2 ≤ 12 →
  month_offset leap m1 + month_length leap m1 ≤ month_offset leap m2.
Proof.
  intros H1 H12 H2.
  assert (m1 = 1 ∨ m1 = 2 ∨ m1 = 3 ∨ m1 = 4 ∨ m1 = 5 ∨ m1 = 6 ∨ m1 = 7
          ∨ m1 = 8 ∨ m1 = 9 ∨ m1 = 10 ∨ m1 = 11) as Hc1 by lia.
  assert (m2 = 2 ∨ m2 = 3 ∨ m2 = 4 ∨ m2 = 5 ∨ m2 = 6 ∨ m2 = 7 ∨ m2 = 8
          ∨ m2 = 9 ∨ m2 = 10 ∨ m2 = 11 ∨ m2 = 12) as Hc2 by lia.
  destruct leap; repeat (destruct Hc1 as [-> | Hc1]); try subst m1;
    repeat (destruct Hc2 as [-> | Hc2]); try subst m2;
    solve [ lia | eval_months; lia ].
Qed.

Lemma year_split n0 :
  0 ≤ n0 →
  let n400 := n0 / 146097 in
  let r1 := n0 mod 146097 in
  let n100 := r1 / 36524 in
  let r2 := r1 mod 36524 in
  let n4 := r2 / 1461 in
  let r3 := r2 mod 1461 in
  let n1 := r3 / 365 in
  let r4 := r3 mod 365 in
  let year := n400 * 400 + 1 + (n100 * 100 + n4 * 4 + n1) in
  if (n1 =? 4) || (n100 =? 4)
  then _days_before_year year = n0 + 1 ∧ 1 ≤ year - 1
  else _days_before_year year + r4 = n0
       ∧ _is_leap year = ((n1 =? 3) && (negb (n4 =? 24) || (n100 =? 3)))
       ∧ 0 ≤ r4 < 365 + leap_days (_is_leap year)
       ∧ 1 ≤ year.
Proof.
  intros Hn. cbv zeta.
  destruct (Z.eqb_spec (n0 mod 146097 mod 36524 mod 1461 / 365) 4) as [E1|E1];
    [|destruct (Z.eqb_spec (n0 mod 146097 / 36524) 4) as [E2|E2]];
    simpl orb; cbv iota.
  - unfold _days_before_year. Z.div_mod_to_equations; lia.
  - unfold _days_before_year. Z.div_mod_to_equations; lia.
  - match goal with
    | |- _ ∧ _is_leap ?y = ?b ∧ _ =>
        assert (_is_leap y = b) as HL
    end.
    { destruct (_is_leap _) eqn:EL.
      - apply is_leap_true_iff in EL. symmetry.
        rewrite andb_true_iff, orb_true_iff, negb_true_iff, !Z.eqb_eq, Z.eqb_neq.
        Z.div_mod_to_equations; lia.
      - apply is_leap_false_iff in EL. symmetry. apply not_true_is_false.
        rewrite andb_true_iff, orb_true_iff, negb_true_iff, !Z.eqb_eq, Z.eqb_neq.
        intros HH. apply EL. Z.div_mod_to_equations; lia. }
    split; [|split; [exact HL|split]].
    + unfold _days_before_year. Z.div_mod_to_equations; lia.
    + rewrite HL. unfold leap_days. case_match; Z.div_mod_to_equations; lia.
    + Z.div_mod_to_equations; lia.
Qed.

(** [_ord2ymd] yields the date whose ordinal is [n]. *)
Lemma ord2ymd_spec n y m d :
  1 ≤ n → _ord2ymd n = (y, m, d) →
  _ymd2ord y m d = n ∧ 1 ≤ y ∧ 1 ≤ m ≤ 12 ∧ 1 ≤ d ≤ _days_in_month y m.
Proof.
  intros Hn. unfold _ord2ymd, _DI400Y, _DI100Y, _DI4Y.
  pose proof (year_split (n - 1) ltac:(lia)) as HS. cbv zeta in HS.
  destruct (_ || _) eqn:E.
  - intros [= <- <- <-]. destruct HS as [HS Hy].
    unfold _ymd2ord, _days_before_month, _days_in_month.
    split; [|split; [exact Hy|]].
    + pose proof (days_before_year_succ
        ((n - 1) / 146097 * 400 + 1
         + ((n - 1) mod 146097 / 36524 * 100
            + (n - 1) mod 146097 mod 36524 / 1461 * 4
            + (n - 1) mod 146097 mod 36524 mod 1461 / 365) - 1)) as Hs.
      rewrite Z.sub_add in Hs. unfold leap_days in Hs.
      destruct (_is_leap _); eval_months; lia.
    + destruct (_is_leap _); eval_months; lia.
  - destruct HS as (HS & HL & Hr & Hy). rewrite <- HL.
    destruct (month_day _ _) as [mm dd] eqn:Emd. intros [= <- <- <-].
    apply month_day_spec in Emd; [|exact Hr].
    unfold _ymd2ord, _days_before_month, _days_in_month.
    clear E HL Hr.
    match type of Hy with 1 ≤ ?Y => set (year := Y) in * end.
    match type of HS with _ + ?R = _ => set (r := R) in * end.
    clearbody year r. lia.
Qed.

Lemma ord2ymd_year_max n y m d :
  1 ≤ n ≤ _MAXORDINAL → _ord2ymd n = (y, m, d) → y ≤ MAXYEAR.
Proof.
  intros Hn H. destruct (ord2ymd_spec _ _ _ _ (proj1 Hn) H) as (Ho & Hy & Hm & Hd).
  destruct (Z_le_gt_dec y MAXYEAR) as [|Hgt]; [done|exfalso].
  assert (_days_before_year 10000 ≤ _days_before_year y) as Hmono.
  { apply days_before_year_mono. unfold MAXYEAR in Hgt. lia. }
  change (_days_before_year 10000) with 3652059 in Hmono.
  pose proof (year_offset_bound (_is_leap y) m d Hm Hd).
  unfold _ymd2ord, _days_before_month, _MAXORDINAL in *. lia.
Qed.

Lemma ord2ymd_valid n y m d :
  1 ≤ n ≤ _MAXORDINAL → _ord2ymd n = (y, m, d) →
  valid_dateb y m d = true ∧ _ymd2ord y m d = n.
Proof.
  intros Hn H. pose proof (ord2ymd_year_max _ _ _ _ Hn H) as Hmax.
  destruct (ord2ymd_spec _ _ _ _ (proj1 Hn) H) as (Ho & Hy & Hm & Hd).
  split; [|done]. unfold valid_dateb, MINYEAR.
  repeat (apply andb_true_intro; split); apply Z.leb_le; lia.
Qed.

Lemma valid_dateb_spec y m d :
  valid_dateb y m d = true ↔ valid_date y m d.
Proof.
  unfold valid_dateb, valid_date.
  rewrite !andb_true_iff, !Z.leb_le. tauto.
Qed.

(** The ordinal of a date grows with the date. *)
Lemma ymd2ord_lt y1 m1 d1 y2 m2 d2 :
  1 ≤ m1 ≤ 12 → 1 ≤ d1 ≤ _days_in_month y1 m1 →
  1 ≤ m2 ≤ 12 → 1 ≤ d2 ≤ _days_in_month y2 m2 →
  lex (y1 ?= y2) (lex (m1 ?= m2) (d1 ?= d2)) = Lt →
  _ymd2ord y1 m1 d1 < _ymd2ord y2 m2 d2.
Proof.
  intros Hm1 Hd1 Hm2 Hd2. unfold _ymd2ord, _days_in_month, _days_before_month in *.
  pose proof (year_offset_bound _ _ _ Hm1 Hd1) as B1.
  pose proof (year_offset_bound _ _ _ Hm2 Hd2) as B2.
  destruct (Z.compare_spec y1 y2) as [->|Hy|Hy]; simpl; [|intros _|discriminate].
  - destruct (Z.compare_spec m1 m2) as [->|Hm|Hm]; simpl; [|intros _|discriminate].
    + rewrite Z.compare_lt_iff. lia.
    + pose proof (month_offset_next (_is_leap y2) m1 m2 ltac:(lia) Hm ltac:(lia)).
      lia.
  - pose proof (days_before_year_succ y1) as Hs.
    pose proof (days_before_year_mono (y1 + 1) y2 ltac:(lia)). lia.
Qed.

Lemma lex_eq c1 c2 : lex c1 c2 = Eq ↔ c1 = Eq ∧ c2 = Eq.
Proof. destruct c1, c2; simpl; split; (intros [? ?] || intros ?); try done. Qed.

Lemma lex_antisym c1 c2 :
  CompOpp (lex c1 c2) = lex (CompOpp c1) (CompOpp c2).
Proof. by destruct c1. Qed.

(** ** Instants *)

Lemma valid_datetime_spec d :
  valid_datetime d ↔
  valid_date (dt_year d) (dt_month d) (dt_day d) ∧ valid_time d.
Proof.
  unfold valid_datetime, valid_datetimeb, valid_timeb, valid_time.
  rewrite andb_true_iff, valid_dateb_spec, !andb_true_iff, !Z.leb_le. tauto.
Qed.

Lemma date_lt_ordinal a b :
  valid_date_of a → valid_date_of b →
  date_compare a b = Lt → toordinal a < toordinal b.
Proof.
  intros (_ & Hm1 & Hd1) (_ & Hm2 & Hd2).
  unfold date_compare, toordinal. by apply ymd2ord_lt.
Qed.

Lemma date_compare_lt_ordinal a b :
  valid_datetime a → valid_datetime b →
  date_compare a b = Lt → toordinal a < toordinal b.
Proof.
  rewrite !valid_datetime_spec. intros [Ha _] [Hb _]. by apply date_lt_ordinal.
Qed.

Lemma date_compare_eq a b :
  date_compare a b = Eq →
  dt_year a = dt_year b ∧ dt_month a = dt_month b ∧ dt_day a = dt_day b.
Proof.
  unfold date_compare. rewrite !lex_eq, !Z.compare_eq_iff. tauto.
Qed.

Lemma date_compare_antisym a b : date_compare b a = CompOpp (date_compare a b).
Proof.
  unfold date_compare.
  by rewrite !lex_antisym, <- !Z.compare_antisym.
Qed.

Lemma ordinal_lt_date a b :
  valid_date_of a → valid_date_of b →
  toordinal a < toordinal b → date_compare a b = Lt.
Proof.
  intros Ha Hb Hlt. destruct (date_compare a b) eqn:E; [exfalso|done|exfalso].
  - apply date_compare_eq in E as (E1 & E2 & E3).
    unfold toordinal in Hlt. rewrite E1, E2, E3 in Hlt. lia.
  - assert (date_compare b a = Lt) as E' by (by rewrite date_compare_antisym, E).
    pose proof (date_lt_ordinal b a Hb Ha E'). lia.
Qed.

Lemma time_compare_lt a b :
  valid_time a → valid_time b → time_compare a b = Lt →
  (dt_hour a * 3600 + dt_minute a * 60 + dt_second a) * 1000000 + dt_microsecond a
  < (dt_hour b * 3600 + dt_minute b * 60 + dt_second b) * 1000000 + dt_microsecond b.
Proof.
  unfold valid_time, time_compare. intros Ha Hb.
  destruct (Z.compare_spec (dt_hour a) (dt_hour b)); simpl; [|lia|discriminate].
  destruct (Z.compare_spec (dt_minute a) (dt_minute b)); simpl; [|lia|discriminate].
  destruct (Z.compare_spec (dt_second a) (dt_second b)); simpl; [|lia|discriminate].
  rewrite Z.compare_lt_iff. lia.
Qed.

(** On instants that exist, the order of the field tuples is the order of
    the time line. *)
Lemma dt_compare_lt_micros a b :
  valid_datetime a → valid_datetime b →
  dt_compare a b = Lt → micros a < micros b.
Proof.
  intros Ha Hb. unfold dt_compare.
  destruct (date_compare a b) eqn:E; simpl; [|intros _|discriminate].
  - intros Ht. apply date_compare_eq in E as (E1 & E2 & E3).
    apply valid_datetime_spec in Ha as [_ Ha], Hb as [_ Hb].
    pose proof (time_compare_lt a b Ha Hb Ht).
    unfold micros, toordinal. rewrite E1, E2, E3. lia.
  - pose proof (date_compare_lt_ordinal a b Ha Hb E).
    apply valid_datetime_spec in Ha as [_ Ha], Hb as [_ Hb].
    unfold valid_time in *. unfold micros. lia.
Qed.

Lemma dt_ltb_micros a b :
  valid_datetime a → valid_datetime b →
  dt_ltb a b = true → micros a < micros b.
Proof.
  intros Ha Hb. unfold dt_ltb.
  destruct (dt_compare a b) eqn:E; try discriminate.
  intros _. by apply dt_compare_lt_micros.
Qed.

(** A later calendar day is a later instant, whatever the time of day. *)
Lemma date_lt_dt_ltb a b : date_compare a b = Lt → dt_ltb a b = true.
Proof. unfold dt_ltb, dt_compare. by intros ->. Qed.

Lemma timedelta_days n :
  0 ≤ n ≤ 999999999 → timedelta n 0 0 = Ok (n * 86400).
Proof.
  intros Hn. unfold timedelta.
  replace (n * 86400 + 0 * 3600 + 0 * 60) with (n * 86400) by lia.
  rewrite Z.div_mul by lia. rewrite Z.abs_eq by lia.
  destruct (Z.ltb_spec 999999999 n); [lia|done].
Qed.

(** Adding whole days moves the ordinal and keeps the time of day. *)
Lemma dt_plus_days d n r :
  valid_time d → 0 ≤ n →
  dt_plus d n 0 0 = Ok r →
  toordinal r = toordinal d + n
  ∧ valid_dateb (dt_year r) (dt_month r) (dt_day r) = true
  ∧ dt_hour r = dt_hour d ∧ dt_minute r = dt_minute d
  ∧ dt_second r = dt_second d ∧ dt_microsecond r = dt_microsecond d.
Proof.
  intros Ht Hn. unfold dt_plus, timedelta.
  replace (n * 86400 + 0 * 3600 + 0 * 60) with (n * 86400) by lia.
  rewrite Z.div_mul by lia.
  destruct (_ <? _); [discriminate|]. simpl. unfold dt_add.
  unfold valid_time in Ht.
  set (t := dt_hour d * 3600 + dt_minute d * 60 + dt_second d).
  assert (0 ≤ t < 86400) as Hb by (unfold t; lia).
  replace ((t + n * 86400) / 86400) with n
    by (Z.div_mod_to_equations; lia).
  replace ((t + n * 86400) mod 86400) with t
    by (Z.div_mod_to_equations; lia).
  destruct (andb _ _) eqn:E; [|discriminate].
  apply andb_true_iff in E as [E1 E2].
  apply Z.ltb_lt in E1. apply Z.leb_le in E2.
  destruct (_ord2ymd _) as [[y m] dd] eqn:Eo. intros [= <-].
  apply ord2ymd_valid in Eo as [Hv Ho]; [|lia].
  unfold toordinal. simpl. rewrite Ho.
  split; [done|split; [done|]].
  unfold t. repeat split; Z.div_mod_to_equations; lia.
Qed.

Lemma dt_plus_days_valid d n r :
  valid_datetime d → 0 ≤ n → dt_plus d n 0 0 = Ok r → valid_datetime r.
Proof.
  intros Hd Hn Hr. apply valid_datetime_spec in Hd as [_ Ht].
  destruct (dt_plus_days d n r Ht Hn Hr) as (_ & Hv & E1 & E2 & E3 & E4).
  apply valid_datetime_spec. split; [by apply valid_dateb_spec|].
  unfold valid_time in *. rewrite E1, E2, E3, E4. done.
Qed.

Lemma dt_plus_days_micros d n r :
  valid_time d → 0 ≤ n → dt_plus d n 0 0 = Ok r →
  micros r = micros d + n * 86400000000.
Proof.
  intros Ht Hn Hr.
  destruct (dt_plus_days d n r Ht Hn Hr) as (Ho & _ & E1 & E2 & E3 & E4).
  unfold micros. rewrite Ho, E1, E2, E3, E4. lia.
Qed.

Lemma toordinal_bounds d :
  valid_datetime d → 1 ≤ toordinal d ≤ _MAXORDINAL.
Proof.
  intros Hd. apply valid_datetime_spec in Hd as [(Hy & Hm & Hdd) _].
  unfold toordinal, _ymd2ord, _days_before_month, _days_in_month in *.
  pose proof (year_offset_bound _ _ _ Hm Hdd) as B.
  pose proof (days_before_year_mono 1 (dt_year d) ltac:(unfold MINYEAR in *; lia)) as L.
  pose proof (days_before_year_mono (dt_year d + 1) 10000
                ltac:(unfold MAXYEAR in *; lia)) as U.
  rewrite days_before_year_succ in U.
  change (_days_before_year 1) with 0 in L.
  change (_days_before_year 10000) with 3652059 in U.
  unfold _MAXORDINAL. lia.
Qed.

Lemma dt_plus_days_Ok d n :
  valid_datetime d → 0 ≤ n → toordinal d + n ≤ _MAXORDINAL →
  ∃ r, dt_plus d n 0 0 = Ok r.
Proof.
  intros Hd Hn Hmax. pose proof (toordinal_bounds d Hd) as Hb.
  apply valid_datetime_spec in Hd as [_ Ht]. unfold valid_time in Ht.
  unfold dt_plus. rewrite timedelta_days by (unfold _MAXORDINAL in *; lia).
  simpl. unfold dt_add.
  set (t := dt_hour d * 3600 + dt_minute d * 60 + dt_second d).
  assert (0 ≤ t < 86400) as Hbt by (unfold t; lia).
  replace ((t + n * 86400) / 86400) with n
    by (Z.div_mod_to_equations; lia).
  destruct (andb _ _) eqn:E.
  - destruct (_ord2ymd _) as [[y m] dd]. eauto.
  - apply andb_false_iff in E as [E|E];
      [apply Z.ltb_ge in E | apply Z.leb_gt in E]; lia.
Qed.

(** ** The resolver *)

Lemma combine_date_time_Some date hour time_str r :
  TimeParser._combine_date_time date hour time_str = Ok (Some r) →
  dt_year r = dt_year date ∧ dt_month r = dt_month date ∧ dt_day r = dt_day date.
Proof.
  unfold TimeParser._combine_date_time.
  destruct (strptime_HM _) as [t|[]]; try discriminate.
  by intros [= <-].
Qed.

Lemma weekday_range d : 0 ≤ weekday d ≤ 6.
Proof. unfold weekday. Z.div_mod_to_equations; lia. Qed.

Lemma get_next_weekday_spec num now target :
  valid_datetime now → 0 ≤ num ≤ 6 →
  TimeParser._get_next_weekday num 0 now = Ok target →
  weekday target = num
  ∧ toordinal now < toordinal target
  ∧ valid_dateb (dt_year target) (dt_month target) (dt_day target) = true.
Proof.
  intros Hv Hnum. unfold TimeParser._get_next_weekday.
  pose proof (weekday_range now) as Hw.
  set (k := (if num - weekday now <=? 0 then num - weekday now + 7
             else num - weekday now) + 0 * 7).
  assert (1 ≤ k ≤ 7 ∧ (k = num - weekday now ∨ k = num - weekday now + 7))
    as [Hk Hk'].
  { unfold k. destruct (Z.leb_spec (num - weekday now) 0); lia. }
  clearbody k. intros Hp.
  apply valid_datetime_spec in Hv as [_ Ht].
  destruct (dt_plus_days now k target Ht ltac:(lia) Hp) as (Ho & Hd & _).
  split; [|split; [lia|done]].
  unfold weekday in *. rewrite Ho. Z.div_mod_to_equations; lia.
Qed.

Lemma weekday_loop_no_time entries time_str now :
  TimeParser.search_time time_str = None →
  TimeParser.weekday_loop entries time_str now = Ok None.
Proof.
  intros Hs. induction entries as [|[name num] entries IH]; simpl; [done|].
  rewrite Hs. by destruct (Text.contains name time_str).
Qed.

Lemma weekday_loop_Some entries time_str now r :
  TimeParser.weekday_loop entries time_str now = Ok (Some r) →
  ∃ name num target,
    List.find (fun e => Text.contains e.1 time_str) entries = Some (name, num)
    ∧ TimeParser._get_next_weekday num 0 now = Ok target
    ∧ dt_year r = dt_year target ∧ dt_month r = dt_month target
    ∧ dt_day r = dt_day target.
Proof.
  destruct (TimeParser.search_time time_str) as [[g1 g2]|] eqn:Es;
    [|by rewrite weekday_loop_no_time].
  induction entries as [|[name num] entries IH]; simpl; [discriminate|].
  rewrite Es. destruct (Text.contains name time_str); [|exact IH].
  intros H. apply bind_Ok in H as (target & Ht & Hc).
  apply combine_date_time_Some in Hc. by exists name, num, target.
Qed.

Lemma weekday_map_range name num :
  In (name, num) TimeParser.weekday_map → 0 ≤ num ≤ 6.
Proof.
  unfold TimeParser.weekday_map. simpl.
  intros H. repeat (destruct H as [[= <- <-]|H]; [lia|]). destruct H.
Qed.

Section ResolverFacts.

Variable dateparser_parse : string → datetime → option datetime.

Lemma first_future_later ps time_str now r :
  TimeParser.first_future ps time_str now = Ok (Some r) → dt_ltb now r = true.
Proof.
  induction ps as [|p ps IH]; simpl; [discriminate|].
  intros H. apply bind_Ok in H as ([t|] & _ & H); [|by apply IH].
  destruct (dt_ltb now t) eqn:E; [|by apply IH]. by injection H as <-.
Qed.

(** C3. Whenever the resolver [parse_time_natural] answers, the instant it
    returns is strictly later than [now]. *)
Theorem resolve_strictly_future time_str now r :
  TimeParser.parse_time_natural dateparser_parse time_str now = Some r →
  dt_ltb now r = true.
Proof.
  unfold TimeParser.parse_time_natural.
  match goal with
  | |- catch ?m _ = _ → _ => destruct m as [x|e] eqn:E
  end; unfold catch; [intros ->|discriminate].
  apply bind_Ok in E as (processed & _ & E).
  apply bind_Ok in E as ([t|] & E1 & E).
  - injection E as <-. by apply first_future_later in E1.
  - by apply first_future_later in E.
Qed.

End ResolverFacts.

Lemma parse_weekday_time_unfold time_str now :
  TimeParser._parse_weekday_time time_str now
  = TimeParser.weekday_loop TimeParser.weekday_map time_str now.
Proof. reflexivity. Qed.

(** C7. The day that the weekday strategy resolves falls on the weekday
    that the phrase asks for, and it is a calendar day after that of [now]:
    never the day of [now] itself. *)
Theorem weekday_strategy_strictly_forward time_str now r :
  valid_datetime now →
  TimeParser._parse_weekday_time time_str now = Ok (Some r) →
  ∃ num, TimeParser.requested_weekday time_str = Some num
    ∧ weekday r = num
    ∧ date_compare now r = Lt
    ∧ dt_ltb now r = true.
Proof.
  intros Hv H. rewrite parse_weekday_time_unfold in H.
  apply weekday_loop_Some in H
    as (name & num & target & Hf & Ht & Ey & Em & Ed).
  pose proof (find_some _ _ Hf) as [Hin _].
  apply weekday_map_range in Hin.
  destruct (get_next_weekday_spec num now target Hv Hin Ht) as (Hw & Ho & Hd).
  assert (toordinal r = toordinal target) as Hor
    by (unfold toordinal; by rewrite Ey, Em, Ed).
  exists num. unfold TimeParser.requested_weekday. rewrite Hf.
  assert (date_compare now r = Lt) as Hlt.
  { apply ordinal_lt_date; [by apply valid_datetime_spec in Hv as [? _]| |lia].
    apply valid_dateb_spec. by rewrite Ey, Em, Ed. }
  repeat split; [|exact Hlt|by apply date_lt_dt_ltb].
  unfold weekday in *. rewrite Hor. exact Hw.
Qed.

Lemma weekday_strategy_strictly_forward_witness :
  valid_datetime saturday_morning
  ∧ TimeParser._parse_weekday_time "周六9点" saturday_morning
    = Ok (Some (mk_datetime 2025 6 21 9 0 0 0))
  ∧ ∃ num, TimeParser.requested_weekday "周六9点" = Some num
      ∧ weekday (mk_datetime 2025 6 21 9 0 0 0) = num
      ∧ date_compare saturday_morning (mk_datetime 2025 6 21 9 0 0 0) = Lt
      ∧ dt_ltb saturday_morning (mk_datetime 2025 6 21 9 0 0 0) = true.
Proof.
  split; [vm_compute; reflexivity|]. split; [vm_compute; reflexivity|].
  apply (weekday_strategy_strictly_forward "周六9点" saturday_morning);
    vm_compute; reflexivity.
Defined.

Lemma resolve_strictly_future_witness :
  TimeParser.parse_time_natural no_dateparser "30分钟后" sunday_afternoon
  = Some (mk_datetime 2025 6 8 14 30 0 0)
  ∧ dt_ltb sunday_afternoon (mk_datetime 2025 6 8 14 30 0 0) = true.
Proof.
  split; [vm_compute; reflexivity|].
  apply (resolve_strictly_future no_dateparser "30分钟后" sunday_afternoon).
  vm_compute; reflexivity.
Defined.

(** C4. On Sunday 2025-06-08 at 14:00 the phrase for Saturday, evening,
    9 o'clock resolves to 2025-06-14 09:00: the weekday strategy answers
    first and does not read the evening marker, so the result is not the
    21:00 of the specification. *)
Theorem saturday_evening_resolves_to_morning
    (dateparser_parse : string → datetime → option datetime) :
  weekday sunday_afternoon = 6
  ∧ TimeParser.parse_time_natural dateparser_parse "周六晚上9点" sunday_afternoon
    = Some (mk_datetime 2025 6 14 9 0 0 0)
  ∧ TimeParser.parse_time_natural dateparser_parse "本周六晚上9点" sunday_afternoon
    = Some (mk_datetime 2025 6 14 9 0 0 0)
  ∧ TimeParser.parse_time_natural dateparser_parse "周六晚上9点" sunday_afternoon
    ≠ Some (mk_datetime 2025 6 14 21 0 0 0).
Proof.
  repeat split; try (vm_compute; reflexivity).
  vm_compute. discriminate.
Qed.

(** C6. At 14:00 the phrases for "5 minutes later" and "2 hours later"
    resolve to 05:00 and 02:00 of the next day, not to 14:05 and 16:00: the
    preprocessing rewrites the unit words, the offset strategy no longer
    recognises the phrase, and the clock-time strategy reads the number as
    an hour.  The offset strategy on its own gives the sums. *)
Theorem minutes_later_resolves_to_clock_hour
    (dateparser_parse : string → datetime → option datetime) :
  TimeParser.parse_time_natural dateparser_parse "5分钟后" sunday_afternoon
  = Some (mk_datetime 2025 6 9 5 0 0 0)
  ∧ TimeParser.parse_time_natural dateparser_parse "2小时后" sunday_afternoon
    = Some (mk_datetime 2025 6 9 2 0 0 0)
  ∧ TimeParser._parse_relative_days "5分钟后" sunday_afternoon
    = Ok (Some (mk_datetime 2025 6 8 14 5 0 0))
  ∧ TimeParser._parse_relative_days "2小时后" sunday_afternoon
    = Ok (Some (mk_datetime 2025 6 8 16 0 0 0)).
Proof. repeat split; vm_compute; reflexivity. Qed.

(** ** Texts and numbers *)

Lemma app_cons c (s t : string) : String c s +:+ t = String c (s +:+ t).
Proof. reflexivity. Qed.

Lemma app_empty_l (t : string) : EmptyString +:+ t = t.
Proof. reflexivity. Qed.

Lemma app_empty_r (s : string) : s +:+ EmptyString = s.
Proof. induction s as [|c s IH]; [done|]. by rewrite app_cons, IH. Qed.

Lemma app_assoc (s t u : string) : (s +:+ t) +:+ u = s +:+ (t +:+ u).
Proof. induction s as [|c s IH]; [done|]. by rewrite !app_cons, IH. Qed.

Lemma app_length (s t : string) :
  String.length (s +:+ t) = (String.length s + String.length t)%nat.
Proof. induction s as [|c s IH]; [done|]. rewrite app_cons. simpl. by rewrite IH. Qed.

Lemma all_digits_app s t :
  all_digits (s +:+ t) = all_digits s && all_digits t.
Proof.
  induction s as [|c s IH]; [done|]. rewrite app_cons. simpl.
  by rewrite IH, andb_assoc.
Qed.

Lemma int_from_app a s t :
  Text.int_from a (s +:+ t) = Text.int_from (Text.int_from a s) t.
Proof.
  revert a. induction s as [|c s IH]; intros a; [done|].
  rewrite app_cons. simpl. apply IH.
Qed.

Lemma digit_char_spec d :
  0 ≤ d < 10 →
  Text.is_digit (Text.digit_char d) = true
  ∧ Text.digit_value (Text.digit_char d) = d.
Proof.
  intros Hd.
  assert (d = 0 ∨ d = 1 ∨ d = 2 ∨ d = 3 ∨ d = 4 ∨ d = 5 ∨ d = 6 ∨ d = 7
          ∨ d = 8 ∨ d = 9) as Hc by lia.
  repeat (destruct Hc as [-> | Hc]); try subst d; by vm_compute.
Qed.

Lemma digits_onto_S fuel n acc :
  Text.digits_onto (S fuel) n acc
  = if n <? 10 then String (Text.digit_char (n mod 10)) acc
    else Text.digits_onto fuel (n / 10) (String (Text.digit_char (n mod 10)) acc).
Proof. reflexivity. Qed.

Lemma all_digits_one c :
  all_digits (String c EmptyString) = Text.is_digit c.
Proof. unfold all_digits. apply andb_true_r. Qed.

Lemma int_from_one a c :
  Text.int_from a (String c EmptyString) = a * 10 + Text.digit_value c.
Proof. reflexivity. Qed.

(** The digits that [digits_onto] puts in front of [acc]. *)
Lemma digits_onto_spec fuel n acc :
  0 ≤ n < 10 ^ Z.of_nat (S fuel) →
  ∃ ds, Text.digits_onto (S fuel) n acc = ds +:+ acc
    ∧ all_digits ds = true
    ∧ (∀ a, Text.int_from a ds = a * 10 ^ Z.of_nat (String.length ds) + n)
    ∧ (String.length ds = 1%nat ∨ 10 ^ (Z.of_nat (String.length ds) - 1) ≤ n).
Proof.
  revert n acc. induction fuel as [|fuel IH]; intros n acc Hn;
    rewrite digits_onto_S.
  - change (10 ^ Z.of_nat 1) with 10 in Hn.
    destruct (digit_char_spec n Hn) as [Hd Hv].
    exists (String (Text.digit_char n) EmptyString).
    rewrite Z.mod_small by lia.
    destruct (Z.ltb_spec n 10); [|lia].
    rewrite all_digits_one, Hd. repeat split; [|by left].
    intros a. rewrite int_from_one, Hv.
    change (String.length (String (Text.digit_char n) EmptyString)) with 1%nat.
    change (10 ^ Z.of_nat 1) with 10. lia.
  - assert (0 ≤ n mod 10 < 10) as Hm by (apply Z.mod_pos_bound; lia).
    destruct (digit_char_spec _ Hm) as [Hd Hv].
    destruct (Z.ltb_spec n 10) as [Hlt|Hge].
    + exists (String (Text.digit_char (n mod 10)) EmptyString).
      rewrite all_digits_one, Hd. repeat split; [|by left].
      intros a. rewrite int_from_one, Hv.
      change (String.length (String (Text.digit_char (n mod 10)) EmptyString))
        with 1%nat.
      change (10 ^ Z.of_nat 1) with 10. rewrite Z.mod_small by lia. lia.
    + assert (0 ≤ n / 10 < 10 ^ Z.of_nat (S fuel)) as Hq.
      { rewrite (Nat2Z.inj_succ (S fuel)), Z.pow_succ_r in Hn by lia.
        split; [apply Z.div_pos; lia|].
        apply Z.div_lt_upper_bound; lia. }
      destruct (IH (n / 10) (String (Text.digit_char (n mod 10)) acc) Hq)
        as (ds & E & Hall & Hint & Hlen).
      exists (ds +:+ String (Text.digit_char (n mod 10)) EmptyString).
      rewrite E, app_assoc, app_cons, app_empty_l.
      split; [done|]. rewrite all_digits_app, Hall, all_digits_one, Hd.
      split; [done|]. rewrite app_length.
      change (String.length (String (Text.digit_char (n mod 10)) EmptyString))
        with 1%nat.
      replace (Z.of_nat (String.length ds + 1)) with (Z.of_nat (String.length ds) + 1)
        by lia.
      pose proof (Z.div_mod n 10 ltac:(lia)) as Hdm.
      split.
      * intros a. rewrite int_from_app, Hint, int_from_one, Hv.
        rewrite Z.pow_add_r by lia. change (10 ^ 1) with 10. lia.
      * right. replace (Z.of_nat (String.length ds) + 1 - 1)
          with (Z.succ (Z.of_nat (String.length ds) - 1)) by lia.
        assert (1 ≤ Z.of_nat (String.length ds)) as H1.
        { destruct Hlen as [->|Hlen]; [lia|].
          destruct ds as [|c ds]; [|cbn [String.length]; lia].
          exfalso. specialize (Hint 0).
          change (Text.int_from 0 EmptyString) with 0 in Hint.
          change (String.length EmptyString) with 0%nat in Hint.
          change (10 ^ Z.of_nat 0) with 1 in Hint. lia. }
        rewrite Z.pow_succ_r by lia.
        destruct Hlen as [->|Hlen];
          [change (10 ^ (Z.of_nat 1 - 1)) with 1; lia|lia].
Qed.

Lemma str_of_int_spec n :
  0 ≤ n →
  all_digits (Text.str_of_int n) = true
  ∧ Text.int (Text.str_of_int n) = n
  ∧ (String.length (Text.str_of_int n) = 1%nat
     ∨ 10 ^ (Z.of_nat (String.length (Text.str_of_int n)) - 1) ≤ n).
Proof.
  intros Hn. unfold Text.str_of_int.
  assert (0 ≤ n < 10 ^ Z.of_nat (S (Z.to_nat (Z.log2 n)))) as Hb.
  { split; [done|]. pose proof (Z.log2_nonneg n) as Hl.
    rewrite Nat2Z.inj_succ, Z2Nat.id by done.
    destruct (Z.eq_dec n 0) as [->|Hne]; [by vm_compute|].
    pose proof (Z.log2_spec n ltac:(lia)) as [_ Hs].
    eapply Z.lt_le_trans; [exact Hs|].
    apply Z.pow_le_mono_l. lia. }
  destruct (digits_onto_spec _ n EmptyString Hb) as (ds & E & Hall & Hint & Hlen).
  rewrite E, app_empty_r. split; [done|]. split; [|done].
  unfold Text.int. rewrite Hint. lia.
Qed.

Lemma zeros_spec k s :
  String.length (Text.zeros k s) = (k + String.length s)%nat
  ∧ all_digits (Text.zeros k s) = all_digits s
  ∧ Text.int (Text.zeros k s) = Text.int s.
Proof.
  induction k as [|k (Hl & Ha & Hi)]; [done|].
  change (Text.zeros (S k) s) with (String "0" (Text.zeros k s)).
  cbn [String.length all_digits]. rewrite Hl, Ha.
  split; [done|]. split; [done|]. exact Hi.
Qed.

(** A number below [10 ^ k] is written on exactly [k] digits. *)
Lemma zfill_spec k n :
  (1 ≤ k)%nat → 0 ≤ n < 10 ^ Z.of_nat k →
  String.length (Text.zfill k n) = k
  ∧ all_digits (Text.zfill k n) = true
  ∧ Text.int (Text.zfill k n) = n.
Proof.
  intros Hk Hn. unfold Text.zfill.
  destruct (str_of_int_spec n (proj1 Hn)) as (Hall & Hint & Hlen).
  destruct (zeros_spec (k - String.length (Text.str_of_int n)) (Text.str_of_int n))
    as (Hl & Ha & Hi).
  rewrite Hl, Ha, Hi. split; [|done].
  assert (String.length (Text.str_of_int n) ≤ k)%nat; [|lia].
  destruct Hlen as [->|Hlen]; [lia|].
  destruct (le_gt_dec (String.length (Text.str_of_int n)) k) as [|Hgt]; [done|].
  exfalso.
  assert (10 ^ Z.of_nat k ≤ 10 ^ (Z.of_nat (String.length (Text.str_of_int n)) - 1));
    [apply Z.pow_le_mono_r; lia|lia].
Qed.

Lemma span_digits_exact s rest :
  all_digits s = true →
  Text.span_digits (String.length s) (s +:+ rest) = (s, rest).
Proof.
  induction s as [|c s IH]; simpl; [done|].
  intros [Hc Hs]%andb_true_iff. rewrite app_cons, Hc, (IH Hs). done.
Qed.

Lemma fixed_digits_zfill k n rest :
  (1 ≤ k)%nat → 0 ≤ n < 10 ^ Z.of_nat k →
  Text.fixed_digits k (Text.zfill k n +:+ rest) = Some (n, rest).
Proof.
  intros Hk Hn. destruct (zfill_spec k n Hk Hn) as (Hl & Ha & Hi).
  unfold Text.fixed_digits.
  rewrite <- Hl at 1. rewrite (span_digits_exact _ rest Ha).
  rewrite Hl, Nat.eqb_refl, Hi. done.
Qed.

Lemma expect_cons c s : Text.expect c (String c s) = Some s.
Proof. unfold Text.expect. by rewrite Ascii.eqb_refl. Qed.

Lemma parse_fraction_spec us :
  0 ≤ us ≤ 999999 →
  parse_fraction
    (if us =? 0 then EmptyString else String "." (Text.zfill 6 us))
  = Some us.
Proof.
  intros Hus. destruct (Z.eqb_spec us 0) as [->|Hne]; [done|].
  unfold parse_fraction.
  rewrite <- (app_empty_r (Text.zfill 6 us)).
  rewrite fixed_digits_zfill; [done|lia|]. change (10 ^ Z.of_nat 6) with 1000000. lia.
Qed.

(** [fromisoformat] reads back what [isoformat] writes. *)
Lemma fromisoformat_isoformat d :
  valid_datetime d → fromisoformat (isoformat d) = Ok d.
Proof.
  intros Hv. pose proof Hv as Hv'.
  apply valid_datetime_spec in Hv' as [(Hy & Hm & Hd) (Hh & Hmi & Hs & Hus)].
  assert (_days_in_month (dt_year d) (dt_month d) ≤ 31) as Hdim.
  { unfold _days_in_month, month_length. repeat case_match; lia. }
  unfold MINYEAR, MAXYEAR in Hy.
  unfold fromisoformat, parse_isoformat, isoformat, strftime_date.
  rewrite !app_assoc, !app_cons, !app_empty_l.
  rewrite fixed_digits_zfill by (change (10 ^ Z.of_nat 4) with 10000; lia).
  cbn [mbind option_bind]. rewrite expect_cons. cbn [mbind option_bind].
  rewrite fixed_digits_zfill by (change (10 ^ Z.of_nat 2) with 100; lia).
  cbn [mbind option_bind]. rewrite expect_cons. cbn [mbind option_bind].
  rewrite fixed_digits_zfill by (change (10 ^ Z.of_nat 2) with 100; lia).
  cbn [mbind option_bind]. rewrite expect_cons. cbn [mbind option_bind].
  rewrite fixed_digits_zfill by (change (10 ^ Z.of_nat 2) with 100; lia).
  cbn [mbind option_bind]. rewrite expect_cons. cbn [mbind option_bind].
  rewrite fixed_digits_zfill by (change (10 ^ Z.of_nat 2) with 100; lia).
  cbn [mbind option_bind]. rewrite expect_cons. cbn [mbind option_bind].
  rewrite fixed_digits_zfill by (change (10 ^ Z.of_nat 2) with 100; lia).
  cbn [mbind option_bind]. rewrite (parse_fraction_spec _ Hus).
  cbn [mbind option_bind]. destruct d as [y m dd h mi s us].
  cbn [dt_year dt_month dt_day dt_hour dt_minute dt_second dt_microsecond].
  unfold valid_datetime in Hv. by rewrite Hv.
Qed.

Lemma fromisoformat_valid s d : fromisoformat s = Ok d → valid_datetime d.
Proof.
  unfold fromisoformat. destruct (parse_isoformat s) as [d'|]; [|discriminate].
  destruct (valid_datetimeb d') eqn:E; [|discriminate]. by intros [= <-].
Qed.

Lemma target_time_of_valid data d :
  target_time_of data = Ok d → valid_datetime d.
Proof.
  unfold target_time_of. intros H. apply bind_Ok in H as ([s|b] & _ & H).
  - by apply fromisoformat_valid in H.
  - discriminate.
Qed.

Lemma target_time_of_insert data d :
  valid_datetime d →
  target_time_of (<["target_time" := VStr (isoformat d)]> data) = Ok d.
Proof.
  intros Hv. unfold target_time_of, getitem.
  rewrite lookup_insert_eq. cbn [mbind result_bind fromisoformat_value].
  by apply fromisoformat_isoformat.
Qed.

(** ** Recurrence *)

Lemma schedule_reminder_reminders reminder_id data now st :
  reminders (Plugin._schedule_reminder reminder_id data now st) = reminders st.
Proof.
  unfold Plugin._schedule_reminder.
  destruct (target_time_of data) as [t|e]; cbn [mbind result_bind catch]; [|done].
  by destruct (_ <=? 0).
Qed.

Lemma schedule_reminder_data_file reminder_id data now st :
  data_file (Plugin._schedule_reminder reminder_id data now st) = data_file st.
Proof.
  unfold Plugin._schedule_reminder.
  destruct (target_time_of data) as [t|e]; cbn [mbind result_bind catch]; [|done].
  by destruct (_ <=? 0).
Qed.

(** The record after an assignment to one of its fields and the merge of
    [update_reminder]. *)
Lemma setitem_update reminder_id key v data st :
  reminders st !! reminder_id = Some data →
  reminders
    (ReminderManager.update_reminder reminder_id (<[key := v]> data)
       (ReminderManager.setitem reminder_id key v st))
  = <[reminder_id := <[key := v]> data]> (reminders st).
Proof.
  intros Hd. unfold ReminderManager.update_reminder, ReminderManager.setitem.
  cbn [reminders with_reminders].
  rewrite lookup_alter_eq, Hd. cbn [fmap option_fmap option_map reminders].
  rewrite (idemp_L (∪) (<[key := v]> data)).
  cbn [reminders with_reminders].
  apply map_eq. intros i. destruct (decide (reminder_id = i)) as [->|Hne].
  - by rewrite !lookup_insert_eq.
  - rewrite !lookup_insert_ne by done. by rewrite lookup_alter_ne.
Qed.

Lemma repeat_body_next reminder_id data now st target next :
  reminders st !! reminder_id = Some data →
  target_time_of data = Ok target →
  Plugin.next_time_of (data !! "repeat_type") target = Ok (Some next) →
  valid_datetime next →
  due_at reminder_id (Plugin._handle_repeat_reminder reminder_id data now st)
  = Some next.
Proof.
  intros Hd Ht Hn Hv. unfold Plugin._handle_repeat_reminder, Plugin.repeat_body.
  rewrite Ht. cbn [mbind result_bind]. rewrite Hn. cbn [mbind result_bind catch].
  unfold due_at. rewrite schedule_reminder_reminders.
  cbn [ReminderManager.save_reminders reminders].
  rewrite (setitem_update _ _ _ _ _ Hd), lookup_insert_eq.
  by rewrite target_time_of_insert.
Qed.

Lemma repeat_body_raise reminder_id data now st target e :
  target_time_of data = Ok target →
  Plugin.next_time_of (data !! "repeat_type") target = Raise e →
  Plugin.repeat_body reminder_id data now st = Raise e
  ∧ Plugin._handle_repeat_reminder reminder_id data now st = st.
Proof.
  intros Ht Hn. unfold Plugin._handle_repeat_reminder, Plugin.repeat_body.
  rewrite Ht. cbn [mbind result_bind]. rewrite Hn. done.
Qed.

Lemma next_time_daily target :
  valid_datetime target → toordinal target + 7 ≤ _MAXORDINAL →
  ∃ next, Plugin.next_time_of (Some (VStr "每天")) target = Ok (Some next)
    ∧ valid_datetime next ∧ micros next = micros target + 86400000000.
Proof.
  intros Hv Hmax.
  destruct (dt_plus_days_Ok target 1 Hv ltac:(lia) ltac:(lia)) as [next Hn].
  exists next. unfold Plugin.next_time_of.
  rewrite decide_True by done. rewrite Hn.
  split; [done|].
  split; [exact (dt_plus_days_valid target 1 next Hv ltac:(lia) Hn)|].
  apply valid_datetime_spec in Hv as [_ Ht].
  rewrite (dt_plus_days_micros target 1 next Ht ltac:(lia) Hn). lia.
Qed.

Lemma next_time_weekly target :
  valid_datetime target → toordinal target + 7 ≤ _MAXORDINAL →
  ∃ next, Plugin.next_time_of (Some (VStr "每周")) target = Ok (Some next)
    ∧ valid_datetime next ∧ micros next = micros target + 7 * 86400000000.
Proof.
  intros Hv Hmax.
  destruct (dt_plus_days_Ok target 7 Hv ltac:(lia) ltac:(lia)) as [next Hn].
  exists next. unfold Plugin.next_time_of.
  rewrite decide_False by done. rewrite decide_True by done. rewrite Hn.
  split; [done|].
  split; [exact (dt_plus_days_valid target 7 next Hv ltac:(lia) Hn)|].
  apply valid_datetime_spec in Hv as [_ Ht].
  rewrite (dt_plus_days_micros target 7 next Ht ltac:(lia) Hn). lia.
Qed.

Lemma next_time_monthly target :
  valid_datetime target →
  let '(y, m) := following_month target in
  Plugin.next_time_of (Some (VStr "每月")) target
  = if valid_dateb y m (dt_day target)
    then Ok (Some (mk_datetime y m (dt_day target) (dt_hour target)
                     (dt_minute target) (dt_second target)
                     (dt_microsecond target)))
    else Raise ValueError.
Proof.
  intros Hv. unfold following_month, Plugin.next_time_of, Plugin.next_month.
  rewrite !decide_False by done. rewrite decide_True by done.
  assert (valid_timeb (dt_hour target) (dt_minute target) (dt_second target)
            (dt_microsecond target) = true) as Ht.
  { unfold valid_datetime, valid_datetimeb in Hv.
    by apply andb_true_iff in Hv as [_ ?]. }
  destruct (dt_month target =? 12);
    unfold dt_replace, make_datetime, valid_datetimeb;
    cbn [dt_year dt_month dt_day dt_hour dt_minute dt_second dt_microsecond];
    rewrite Ht, andb_true_r; by destruct (valid_dateb _ _ _).
Qed.



(** ** Create *)

Section CreateFacts.

Variable dateparser_parse : string → datetime → option datetime.
Variable timestamp : datetime → Z.

(** C9. When the resolver has no answer for the phrase, or an answer that
    is not after the instant of the check, [set_reminder_llm] replies with
    the matching error and returns the state it received: no record, no
    write of the data file, no task. *)
Theorem create_rejected_leaves_state q content time_description repeat_type
    now later st :
  let phrase := Plugin.clean_description time_description repeat_type in
  let resolved := TimeParser.parse_time_natural dateparser_parse phrase now in
  (resolved = None ∨ ∃ t, resolved = Some t ∧ dt_leb t later = true) →
  Plugin.set_reminder_llm dateparser_parse timestamp q content
    time_description repeat_type now later st
  = (match resolved with
     | None => Plugin.unresolvable_reply phrase
     | Some _ => Plugin.in_past_reply
     end, st).
Proof.
  intros phrase resolved. subst phrase resolved.
  unfold Plugin.set_reminder_llm, Plugin.clean_description.
  destruct (Plugin.detect_repeat _ repeat_type) as [rt td]. cbn [snd].
  destruct (TimeParser.parse_time_natural dateparser_parse td now) as [t|].
  - intros [H|(t' & [= <-] & H)]; [discriminate|]. by rewrite H.
  - done.
Qed.

End CreateFacts.

Lemma create_rejected_leaves_state_witness :
  TimeParser.parse_time_natural no_dateparser
    (Plugin.clean_description "yesterday" "不重复") sunday_afternoon = None
  ∧ Plugin.set_reminder_llm no_dateparser (fun _ => 0)
      (mk_query "g1" "u1" "group") "meeting" "yesterday" "不重复"
      sunday_afternoon sunday_afternoon monthly_state
    = (Plugin.unresolvable_reply "yesterday", monthly_state).
Proof.
  assert (TimeParser.parse_time_natural no_dateparser
            (Plugin.clean_description "yesterday" "不重复") sunday_afternoon
          = None) as H by (vm_compute; reflexivity).
  split; [exact H|].
  rewrite (create_rejected_leaves_state no_dateparser (fun _ => 0)
             (mk_query "g1" "u1" "group") "meeting" "yesterday" "不重复"
             sunday_afternoon sunday_afternoon monthly_state (or_introl H)).
  rewrite H. reflexivity.
Defined.

(** A phrase that resolves to 14:30 is refused when the check reads
    15:00. *)
Example create_in_past :
  Plugin.set_reminder_llm no_dateparser (fun _ => 0)
    (mk_query "g1" "u1" "group") "meeting" "30分钟后" "不重复"
    sunday_afternoon (mk_datetime 2025 6 8 15 0 0 0) monthly_state
  = (Plugin.in_past_reply, monthly_state).
Proof. vm_compute; reflexivity. Qed.

(** ** Scheduling and the startup replay *)

Lemma schedule_reminder_cases reminder_id data now st :
  Plugin._schedule_reminder reminder_id data now st = st
  ∨ ∃ wake, Plugin._schedule_reminder reminder_id data now st
            = ReminderManager.add_task reminder_id (Pending wake) st.
Proof.
  unfold Plugin._schedule_reminder.
  destruct (target_time_of data) as [t|e]; cbn [mbind result_bind catch];
    [|by left].
  destruct (_ <=? 0); [by left|right; eauto].
Qed.

Lemma schedule_reminder_future reminder_id data now st target :
  target_time_of data = Ok target → micros now < micros target →
  Plugin._schedule_reminder reminder_id data now st
  = ReminderManager.add_task reminder_id (Pending (micros target)) st.
Proof.
  intros Ht Hlt. unfold Plugin._schedule_reminder.
  rewrite Ht. cbn [mbind result_bind catch].
  destruct (Z.leb_spec (micros target - micros now) 0); [lia|].
  replace (micros now + (micros target - micros now)) with (micros target)
    by lia.
  reflexivity.
Qed.

Lemma restore_reminders items now st st' :
  Plugin.restore items now st = Ok st' → reminders st' = reminders st.
Proof.
  revert st. induction items as [|[rid data] items IH]; intros st; simpl.
  - by intros [= <-].
  - destruct (is_active data); [|apply IH].
    intros H. apply bind_Ok in H as (t & _ & H).
    destruct (dt_ltb now t).
    + apply IH in H. by rewrite H, schedule_reminder_reminders.
    + apply bind_Ok in H as (c & _ & H). by apply IH in H.
Qed.

(** A handle that is there after the replay was there before it, or it is
    the live task of an item that counts as active. *)
Lemma restore_tasks items now st st' rid t :
  Plugin.restore items now st = Ok st' →
  running_tasks st' !! rid = Some t →
  running_tasks st !! rid = Some t
  ∨ ∃ data wake, (rid, data) ∈ items ∧ is_active data = true ∧ t = Pending wake.
Proof.
  revert st. induction items as [|[rid0 data0] items IH]; intros st; simpl.
  - intros [= <-]. by left.
  - destruct (is_active data0) eqn:Ea.
    + intros H Hl. apply bind_Ok in H as (t0 & _ & H).
      destruct (dt_ltb now t0).
      * destruct (IH _ H Hl) as [Hs|(data & wake & Hin & Hact & ->)].
        -- destruct (schedule_reminder_cases rid0 data0 now st) as [E|[wake E]];
             rewrite E in Hs; [by left|].
           cbn [ReminderManager.add_task running_tasks with_tasks] in Hs.
           destruct (decide (rid0 = rid)) as [->|Hne].
           ++ rewrite lookup_insert_eq in Hs. injection Hs as <-.
              right. exists data0, wake. split; [left|done].
           ++ rewrite lookup_insert_ne in Hs by done. by left.
        -- right. exists data, wake. split; [by right|done].
      * apply bind_Ok in H as (c & _ & H).
        destruct (IH _ H Hl) as [Hs|(data & wake & Hin & Hact & ->)]; [by left|].
        right. exists data, wake. split; [by right|done].
    + intros H Hl.
      destruct (IH _ H Hl) as [Hs|(data & wake & Hin & Hact & ->)]; [by left|].
      right. exists data, wake. split; [by right|done].
Qed.

Lemma restore_other items now st st' rid :
  Plugin.restore items now st = Ok st' →
  rid ∉ items.*1 →
  running_tasks st' !! rid = running_tasks st !! rid.
Proof.
  revert st. induction items as [|[rid0 data0] items IH]; intros st; simpl.
  - by intros [= <-].
  - intros H Hn. apply not_elem_of_cons in Hn as [Hne Hn].
    destruct (is_active data0); [|by apply IH].
    apply bind_Ok in H as (t0 & _ & H).
    destruct (dt_ltb now t0).
    + rewrite (IH _ H Hn).
      destruct (schedule_reminder_cases rid0 data0 now st) as [E|[wake E]];
        rewrite E; [done|].
      cbn [ReminderManager.add_task running_tasks with_tasks].
      by rewrite lookup_insert_ne.
    + apply bind_Ok in H as (c & _ & H). by apply IH.
Qed.

(** The replay gives an item that counts as active and is due after [now]
    a task that wakes at its due time. *)
Lemma restore_schedules items now st st' rid data target :
  valid_datetime now →
  NoDup items.*1 →
  Plugin.restore items now st = Ok st' →
  (rid, data) ∈ items →
  is_active data = true →
  target_time_of data = Ok target →
  dt_ltb now target = true →
  running_tasks st' !! rid = Some (Pending (micros target)).
Proof.
  intros Hv. revert st.
  induction items as [|[rid0 data0] items IH]; intros st Hnd H Hin Ha Ht Hlt.
  - by apply elem_of_nil in Hin.
  - simpl in Hnd. apply NoDup_cons in Hnd as [Hn0 Hnd].
    apply elem_of_cons in Hin as [[= <- <-]|Hin].
    + simpl in H. rewrite Ha in H. rewrite Ht in H.
      cbn [mbind result_bind] in H. rewrite Hlt in H.
      rewrite (restore_other _ _ _ _ _ H Hn0).
      rewrite (schedule_reminder_future _ _ _ _ target Ht).
      * cbn [ReminderManager.add_task running_tasks with_tasks].
        by rewrite lookup_insert_eq.
      * apply dt_ltb_micros; [done| |done]. by eapply target_time_of_valid.
    + simpl in H. destruct (is_active data0); [|by eapply IH].
      apply bind_Ok in H as (t0 & _ & H).
      destruct (dt_ltb now t0); [by eapply IH|].
      apply bind_Ok in H as (c & _ & H). by eapply IH.
Qed.

Lemma load_reminders_tasks st :
  running_tasks (ReminderManager.load_reminders st) = running_tasks st.
Proof.
  unfold ReminderManager.load_reminders.
  destruct (data_file st) as [text|]; [|done].
  by destruct (Json.loads text).
Qed.

(** ** Records without the [active] field *)

Lemma list_lines_prefix items response out :
  MessageHandler.list_lines items response = Ok out →
  ∃ post, out = response +:+ post.
Proof.
  revert response. induction items as [|[rid0 data0] items IH];
    intros response H; simpl in H.
  - injection H as <-. exists EmptyString. by rewrite app_empty_r.
  - apply bind_Ok in H as (line0 & _ & H).
    destruct (IH _ H) as [post ->]. exists (line0 +:+ post).
    by rewrite app_assoc.
Qed.

(** The response holds the line of every listed record. *)
Lemma list_lines_app items response out rid data line :
  MessageHandler.list_lines items response = Ok out →
  (rid, data) ∈ items → MessageHandler.list_line data = Ok line →
  ∃ pre post, out = pre +:+ line +:+ post.
Proof.
  revert response. induction items as [|[rid0 data0] items IH];
    intros response H Hin Hl.
  - by apply elem_of_nil in Hin.
  - simpl in H. apply bind_Ok in H as (line0 & Hl0 & H).
    apply elem_of_cons in Hin as [[= <- <-]|Hin].
    + rewrite Hl in Hl0. injection Hl0 as <-.
      destruct (list_lines_prefix _ _ _ H) as [post ->].
      exists response, post. by rewrite app_assoc.
    + by eapply IH.
Qed.

(** C10. A record without the [active] field counts as active: the startup
    replay gives it a task that wakes at its due time when that is after
    [now], and the list of its owner shows it with the mark of an active
    reminder. *)
Theorem missing_active_counts_as_active reminder_id data target content :
  data !! "active" = None →
  target_time_of data = Ok target →
  data !! "content" = Some content →
  let line :=
    "✅" +:+ " " +:+ strftime_minute target +:+ " - "
    +:+ str_of_value content +:+ nl in
  is_active data = true
  ∧ (∀ now st st',
       valid_datetime now →
       reminders (ReminderManager.load_reminders st) !! reminder_id = Some data →
       Plugin.initialize now st = Ok st' →
       dt_ltb now target = true →
       running_tasks st' !! reminder_id = Some (Pending (micros target)))
  ∧ MessageHandler.list_line data = Ok line
  ∧ (∀ sender st response,
       data !! "sender_id" = Some (VStr sender) →
       reminders st !! reminder_id = Some data →
       MessageHandler._handle_list_reminders sender st = Ok response →
       ∃ pre post, response = pre +:+ line +:+ post).
Proof.
  intros Ha Ht Hc line.
  assert (is_active data = true) as Hact.
  { unfold is_active. by rewrite Ha. }
  assert (MessageHandler.list_line data = Ok line) as Hline.
  { unfold MessageHandler.list_line, getitem.
    rewrite Ht, Hact, Hc. reflexivity. }
  split; [exact Hact|]. split; [|split; [exact Hline|]].
  - intros now st st' Hv Hl Hi Hlt. unfold Plugin.initialize in Hi.
    eapply restore_schedules; try done.
    + apply NoDup_fst_map_to_list.
    + by apply elem_of_map_to_list.
  - intros sender st response Hs Hl Hr.
    unfold MessageHandler._handle_list_reminders in Hr.
    assert (ReminderManager.get_user_reminders sender st !! reminder_id
            = Some data) as Hu.
    { unfold ReminderManager.get_user_reminders.
      apply map_lookup_filter_Some. split; [done|]. exact Hs. }
    destruct (decide _) as [E|_].
    + rewrite E in Hu. by rewrite lookup_empty in Hu.
    + eapply list_lines_app; [exact Hr| |exact Hline].
      apply elem_of_map_to_list. exact Hu.
Qed.

Lemma missing_active_counts_as_active_witness :
  legacy_record !! "active" = None
  ∧ target_time_of legacy_record = Ok (mk_datetime 2025 6 11 14 0 0 0)
  ∧ legacy_record !! "content" = Some (VStr "meeting")
  ∧ is_active legacy_record = true
  ∧ (∀ st',
       Plugin.initialize sunday_afternoon legacy_state = Ok st' →
       running_tasks st' !! "u1_2"
       = Some (Pending (micros (mk_datetime 2025 6 11 14 0 0 0))))
  ∧ MessageHandler.list_line legacy_record
    = Ok ("✅" +:+ " " +:+ "2025-06-11 14:00" +:+ " - " +:+ "meeting" +:+ nl).
Proof.
  assert (legacy_record !! "active" = None) as H1 by (vm_compute; reflexivity).
  assert (target_time_of legacy_record = Ok (mk_datetime 2025 6 11 14 0 0 0))
    as H2 by (vm_compute; reflexivity).
  assert (legacy_record !! "content" = Some (VStr "meeting")) as H3
    by (vm_compute; reflexivity).
  destruct (missing_active_counts_as_active "u1_2" legacy_record
              (mk_datetime 2025 6 11 14 0 0 0) (VStr "meeting") H1 H2 H3)
    as (Ha & Hs & Hl & _).
  split; [exact H1|]. split; [exact H2|]. split; [exact H3|].
  split; [exact Ha|]. split; [|exact Hl].
  intros st' Hi. apply (Hs sunday_afternoon legacy_state st').
  - vm_compute; reflexivity.
  - vm_compute; reflexivity.
  - exact Hi.
  - vm_compute; reflexivity.
Defined.

(** The replay of that data file does return, with the task. *)
Example legacy_replay :
  ∃ st', Plugin.initialize sunday_afternoon legacy_state = Ok st'
    ∧ running_tasks st' !! "u1_2"
      = Some (Pending (micros (mk_datetime 2025 6 11 14 0 0 0))).
Proof.
  eexists. split; [vm_compute; reflexivity|]. vm_compute; reflexivity.
Qed.

(** ** The pairing of records and tasks *)

(** An operation that leaves every other reminder id alone keeps the
    pairing there. *)
Lemma consistent_frame reminder_id st st' :
  tasks_consistent st →
  (∀ i, i ≠ reminder_id →
        reminders st' !! i = reminders st !! i
        ∧ running_tasks st' !! i = running_tasks st !! i) →
  consistent_at reminder_id st' →
  tasks_consistent st'.
Proof.
  intros Hc Hf Hat i. destruct (decide (i = reminder_id)) as [->|Hne]; [done|].
  destruct (Hf i Hne) as [Hr Ht]. unfold consistent_at. rewrite Hr, Ht.
  apply Hc.
Qed.

Lemma is_active_insert_other key v data :
  key ≠ "active" → is_active (<[key := v]> data) = is_active data.
Proof. intros Hne. unfold is_active. by rewrite lookup_insert_ne. Qed.

Lemma new_reminder_active reminder_id q content repeat_type target_time created :
  is_active
    (Plugin.new_reminder reminder_id q content repeat_type target_time created)
  = true.
Proof.
  unfold is_active, Plugin.new_reminder.
  cbn [list_to_map foldr fst snd].
  repeat (rewrite lookup_insert_ne by done). by rewrite lookup_insert_eq.
Qed.

Lemma startup_consistent now file st :
  Plugin.initialize now (ReminderManager.init file) = Ok st →
  tasks_consistent st.
Proof.
  unfold Plugin.initialize. intros H.
  pose proof (restore_reminders _ _ _ _ H) as Hr.
  assert (∀ rid t, running_tasks st !! rid = Some t →
                   ∃ data wake, reminders st !! rid = Some data
                                ∧ is_active data = true ∧ t = Pending wake)
    as Ht.
  { intros rid t Hl.
    destruct (restore_tasks _ _ _ _ _ _ H Hl)
      as [Hs|(data & wake & Hin & Ha & ->)].
    - rewrite load_reminders_tasks in Hs. unfold ReminderManager.init in Hs.
      cbn [running_tasks] in Hs. by rewrite lookup_empty in Hs.
    - apply elem_of_map_to_list in Hin. rewrite Hr. eauto. }
  intros rid. split.
  - intros data Hd Ha. destruct (running_tasks st !! rid) as [t|] eqn:E; [|done].
    destruct (Ht _ _ E) as (data' & wake & Hd' & Ha' & _). congruence.
  - intros wake Hl. destruct (Ht _ _ Hl) as (data & _ & Hd & Ha & _). eauto.
Qed.

Lemma create_consistent dateparser_parse timestamp q content time_description
    repeat_type now later st :
  tasks_consistent st →
  tasks_consistent
    (Plugin.set_reminder_llm dateparser_parse timestamp q content
       time_description repeat_type now later st).2.
Proof.
  intros Hc. unfold Plugin.set_reminder_llm.
  destruct (Plugin.detect_repeat _ repeat_type) as [rt td].
  destruct (TimeParser.parse_time_natural dateparser_parse td now) as [t|];
    [|exact Hc].
  destruct (dt_leb t later); [exact Hc|]. cbn [snd].
  set (rid := sender_id q +:+ "_" +:+ str_of_Z (timestamp later)).
  set (data := Plugin.new_reminder rid q content rt t later).
  set (st1 := ReminderManager.save_reminders
                (ReminderManager.add_reminder rid data st)).
  assert (reminders st1 = <[rid := data]> (reminders st)) as Hr1 by done.
  assert (running_tasks st1 = running_tasks st) as Ht1 by done.
  apply (consistent_frame rid st).
  - exact Hc.
  - intros i Hne. rewrite schedule_reminder_reminders, Hr1.
    rewrite lookup_insert_ne by done. split; [done|].
    destruct (schedule_reminder_cases rid data later st1) as [E|[wake E]];
      rewrite E; [by rewrite Ht1|].
    cbn [ReminderManager.add_task running_tasks with_tasks].
    rewrite lookup_insert_ne by done. by rewrite Ht1.
  - unfold consistent_at. rewrite schedule_reminder_reminders, Hr1.
    rewrite lookup_insert_eq. split.
    + intros d [= <-]. unfold data. by rewrite new_reminder_active.
    + intros wake _. exists data. split; [done|apply new_reminder_active].
Qed.

Lemma delete_consistent msg sender st :
  tasks_consistent st →
  tasks_consistent (MessageHandler._handle_delete_reminder msg sender st).2.
Proof.
  intros Hc. unfold MessageHandler._handle_delete_reminder.
  set (rid := Text.strip _).
  destruct (String.eqb rid ""); [exact Hc|].
  destruct (ReminderManager.get_reminder rid st) as [data|]; [|exact Hc].
  destruct (decide (data = ∅)); [exact Hc|].
  destruct (MessageHandler.not_owner data sender) as [[]|e]; try exact Hc.
  assert (tasks_consistent
            (ReminderManager.save_reminders
               (ReminderManager.remove_reminder rid
                  (ReminderManager.cancel_task rid st)))) as Hc'.
  { apply (consistent_frame rid st); [exact Hc| |].
    - intros i Hne. cbn. by rewrite !lookup_delete_ne.
    - unfold consistent_at. cbn. rewrite !lookup_delete_eq. by split. }
  by destruct (getitem data "content").
Qed.

Lemma toggle_task_tasks reminder_id data active now st reply st' :
  MessageHandler.toggle_task reminder_id data active now st = (reply, st') →
  reminders st' = reminders st
  ∧ running_tasks st'
    = if active then running_tasks st
      else delete reminder_id (running_tasks st).
Proof.
  unfold MessageHandler.toggle_task. destruct active.
  - destruct (target_time_of data) as [t|e]; [|by intros [= _ <-]].
    destruct (dt_ltb now t); [|by intros [= _ <-]].
    unfold MessageHandler._schedule_reminder. by intros [= _ <-].
  - by intros [= _ <-].
Qed.

Lemma toggle_consistent msg sender active now st :
  tasks_consistent st →
  tasks_consistent (MessageHandler._toggle_reminder msg sender active now st).2.
Proof.
  intros Hc. unfold MessageHandler._toggle_reminder.
  set (rid := Text.strip _).
  destruct (String.eqb rid ""); [exact Hc|].
  destruct (ReminderManager.get_reminder rid st) as [data|] eqn:Hd; [|exact Hc].
  destruct (decide (data = ∅)); [exact Hc|].
  destruct (MessageHandler.not_owner data sender) as [[]|e]; try exact Hc.
  unfold ReminderManager.get_reminder in Hd.
  set (st1 := ReminderManager.save_reminders _).
  assert (reminders st1 = <[rid := <["active" := VBool active]> data]> (reminders st))
    as Hr1 by (unfold st1; cbn [ReminderManager.save_reminders reminders];
               by apply setitem_update).
  assert (running_tasks st1 = running_tasks st) as Ht1.
  { unfold st1, ReminderManager.update_reminder, ReminderManager.setitem.
    cbn [ReminderManager.save_reminders running_tasks with_reminders reminders].
    by destruct (alter _ _ _ !! rid). }
  destruct (MessageHandler.toggle_task rid _ active now st1) as [reply st2] eqn:E.
  apply toggle_task_tasks in E as [Hr2 Ht2]. cbn [snd].
  rewrite Ht1 in Ht2. rewrite Hr1 in Hr2.
  apply (consistent_frame rid st); [exact Hc| |].
  - intros i Hne. rewrite Hr2, Ht2, lookup_insert_ne by done.
    split; [done|]. destruct active; [done|]. by rewrite lookup_delete_ne.
  - unfold consistent_at. rewrite Hr2, Ht2, lookup_insert_eq.
    destruct active.
    + split.
      * intros d [= <-]. unfold is_active. by rewrite lookup_insert_eq.
      * intros wake _. eexists. split; [done|].
        unfold is_active. by rewrite lookup_insert_eq.
    + rewrite lookup_delete_eq. by split.
Qed.

Lemma repeat_consistent reminder_id data now st :
  tasks_consistent st →
  reminders st !! reminder_id = Some data →
  is_active data = true →
  running_tasks st !! reminder_id = Some Finished →
  tasks_consistent (Plugin._handle_repeat_reminder reminder_id data now st).
Proof.
  intros Hc Hd Ha Hf. unfold Plugin._handle_repeat_reminder, Plugin.repeat_body.
  destruct (target_time_of data) as [t|e]; cbn [mbind result_bind catch];
    [|exact Hc].
  destruct (Plugin.next_time_of _ t) as [[next|]|e];
    cbn [mbind result_bind catch]; try exact Hc.
  set (v := VStr (isoformat next)).
  set (st1 := ReminderManager.save_reminders _).
  assert (reminders st1 = <[reminder_id := <["target_time" := v]> data]> (reminders st))
    as Hr1 by (unfold st1; cbn [ReminderManager.save_reminders reminders];
               by apply setitem_update).
  assert (running_tasks st1 = running_tasks st) as Ht1.
  { unfold st1, ReminderManager.update_reminder, ReminderManager.setitem.
    cbn [ReminderManager.save_reminders running_tasks with_reminders reminders].
    by destruct (alter _ _ _ !! reminder_id). }
  assert (is_active (<["target_time" := v]> data) = true) as Ha'
    by (by rewrite is_active_insert_other).
  apply (consistent_frame reminder_id st); [exact Hc| |].
  - intros i Hne. rewrite schedule_reminder_reminders, Hr1.
    rewrite lookup_insert_ne by done. split; [done|].
    destruct (schedule_reminder_cases reminder_id (<["target_time" := v]> data)
                now st1) as [E|[wake E]]; rewrite E; [by rewrite Ht1|].
    cbn [ReminderManager.add_task running_tasks with_tasks].
    rewrite lookup_insert_ne by done. by rewrite Ht1.
  - unfold consistent_at. rewrite schedule_reminder_reminders, Hr1.
    rewrite lookup_insert_eq. split.
    + intros d [= <-]. congruence.
    + intros wake _. eauto.
Qed.

Lemma fire_consistent reminder_id now st st' :
  tasks_consistent st →
  Plugin.fire reminder_id now st = Some st' →
  tasks_consistent st'.
Proof.
  intros Hc. unfold Plugin.fire.
  destruct (running_tasks st !! reminder_id) as [[wake|]|] eqn:Hp;
    try discriminate.
  destruct (wake <=? micros now); [|discriminate]. intros [= <-].
  destruct (proj2 (Hc reminder_id) wake Hp) as (data & Hd & Ha).
  set (st1 := ReminderManager.add_task reminder_id Finished st).
  assert (tasks_consistent st1) as Hc1.
  { apply (consistent_frame reminder_id st); [exact Hc| |].
    - intros i Hne. cbn. by rewrite lookup_insert_ne.
    - unfold consistent_at. cbn. rewrite lookup_insert_eq, Hd. split.
      + intros d [= <-]. congruence.
      + discriminate. }
  unfold Plugin._reminder_task, ReminderManager.get_reminder.
  change (reminders st1) with (reminders st). rewrite Hd.
  destruct (decide (data = ∅)); [exact Hc1|].
  destruct (decide _).
  - apply (consistent_frame reminder_id st1); [exact Hc1| |].
    + intros i Hne. cbn. by rewrite lookup_delete_ne.
    + unfold consistent_at. cbn. rewrite lookup_delete_eq, lookup_insert_eq.
      by split.
  - apply repeat_consistent; try done. cbn. by rewrite lookup_insert_eq.
Qed.




(** ** Pause and resume *)

(** C2. On Sunday 2025-06-08 the owner pauses and then resumes a reminder
    that is due on Wednesday 2025-06-11: the pause removes the task; the
    resume stores [active = true], then fails on
    [self._schedule_reminder], which [MessageHandler] does not have: the
    reply is the failure message and no task exists, where the
    specification promises a live task.  A resume after the due time replies with success and
    schedules nothing, as the specification says. *)
Theorem resume_before_due_schedules_nothing :
  let paused :=
    MessageHandler._handle_pause_reminder "暂停提醒 u1_3" "u1"
      sunday_afternoon pending_state in
  let resumed :=
    MessageHandler._handle_resume_reminder "恢复提醒 u1_3" "u1"
      sunday_afternoon paused.2 in
  let resumed_late :=
    MessageHandler._handle_resume_reminder "恢复提醒 u1_3" "u1"
      (mk_datetime 2025 6 12 8 0 0 0) paused.2 in
  due_at "u1_3" pending_state = Some wednesday_afternoon
  ∧ dt_ltb sunday_afternoon wednesday_afternoon = true
  ∧ paused.1 = "⏸️ 已暂停提醒：" +:+ "meeting"
  ∧ running_tasks paused.2 !! "u1_3" = None
  ∧ resumed.1 = "❌ 操作失败，请重试"
  ∧ (is_active <$> reminders resumed.2 !! "u1_3") = Some true
  ∧ running_tasks resumed.2 !! "u1_3" = None
  ∧ resumed_late.1 = "✅ 已恢复提醒：" +:+ "meeting"
  ∧ running_tasks resumed_late.2 !! "u1_3" = None.
Proof. cbv zeta. repeat split; vm_compute; reflexivity. Qed.

(** ** The data file *)

Lemma scanstring_escape_char c tail t rest :
  Json.scanstring tail = Some (t, rest) →
  Json.scanstring (Json.escape_char c +:+ tail) = Some (String c t, rest).
Proof.
  intros IH.
  destruct c as [[] [] [] [] [] [] [] []];
    match goal with
    | |- context [Json.escape_char ?c] =>
        let e := eval vm_compute in (Json.escape_char c) in
        change (Json.escape_char c) with e
    end;
    rewrite ?app_cons, app_empty_l;
    cbn -[String.append]; rewrite IH; reflexivity.
Qed.

(** [scanstring] reads back a string that [quote] wrote. *)
Lemma scanstring_escape k rest :
  Json.scanstring (Json.escape k +:+ String Json.dquote rest) = Some (k, rest).
Proof.
  induction k as [|c k IH].
  - reflexivity.
  - change (Json.escape (String c k)) with (Json.escape_char c +:+ Json.escape k).
    rewrite app_assoc. by apply scanstring_escape_char.
Qed.

Lemma skip_ws_spaces n s : Json.skip_ws (Json.spaces n s) = Json.skip_ws s.
Proof. induction n as [|n IH]; [done|]. exact IH. Qed.

Lemma skip_ws_newline_indent level s :
  Json.skip_ws (Json.newline_indent level s) = Json.skip_ws s.
Proof. unfold Json.newline_indent. apply (skip_ws_spaces (2 * level)). Qed.

Lemma skip_ws_solid s rest :
  starts_solid s → Json.skip_ws (s +:+ rest) = s +:+ rest.
Proof.
  intros (c & s' & -> & Hc). rewrite app_cons. simpl. by rewrite Hc.
Qed.

Lemma parse_value_dumps v rest :
  Json.parse_value (Json.dumps_value v +:+ rest) = Some (v, rest).
Proof.
  destruct v as [s|[]].
  - unfold Json.dumps_value, Json.quote. rewrite app_cons, app_assoc, app_cons.
    rewrite app_empty_l. unfold Json.parse_value.
    rewrite Ascii.eqb_refl, scanstring_escape. reflexivity.
  - reflexivity.
  - reflexivity.
Qed.

Lemma dumps_value_solid v : starts_solid (Json.dumps_value v).
Proof.
  destruct v as [s|[]]; unfold starts_solid, Json.dumps_value, Json.quote; eauto.
Qed.

Lemma dumps_dict_solid level items : starts_solid (Json.dumps_dict level items).
Proof.
  destruct items; unfold starts_solid, Json.dumps_dict; eauto.
Qed.

Lemma skip_ws_cons_solid c s :
  Json.is_ws c = false → Json.skip_ws (String c s) = String c s.
Proof. intros H. simpl. by rewrite H. Qed.

Lemma skip_ws_cons_ws c s :
  Json.is_ws c = true → Json.skip_ws (String c s) = Json.skip_ws s.
Proof. intros H. simpl. by rewrite H. Qed.

Section Objects.

Context {V : Type}.
Variable dumps_v : V → string.
Variable parse_v : string → option (V * string).
Hypothesis parse_dumps :
  ∀ v rest, parse_v (dumps_v v +:+ rest) = Some (v, rest).
Hypothesis dumps_solid : ∀ v, starts_solid (dumps_v v).

(** One item: the key, the colon and the value. *)
Lemma parse_item k v tail :
  Json.scanstring (item_text dumps_v k v tail)
  = Some (k, String ":" (String " " (dumps_v v +:+ tail)))
  ∧ Text.expect ":" (Json.skip_ws (String ":" (String " " (dumps_v v +:+ tail))))
    = Some (String " " (dumps_v v +:+ tail))
  ∧ parse_v (Json.skip_ws (String " " (dumps_v v +:+ tail))) = Some (v, tail).
Proof.
  split; [apply scanstring_escape|]. split.
  - rewrite skip_ws_cons_solid by reflexivity. apply expect_cons.
  - rewrite skip_ws_cons_ws by reflexivity.
    rewrite skip_ws_solid by apply dumps_solid. apply parse_dumps.
Qed.

Lemma dumps_item_unfold k v tail :
  Json.dumps_item dumps_v (k, v) +:+ tail
  = String Json.dquote (item_text dumps_v k v tail).
Proof.
  unfold Json.dumps_item, Json.quote, item_text. cbn [fst snd].
  by rewrite !app_cons, !app_assoc, !app_cons, !app_empty_l.
Qed.

Lemma dumps_items_one level a :
  Json.dumps_items level [a] = a +:+ Json.newline_indent (level - 1) "}".
Proof. reflexivity. Qed.

Lemma dumps_items_more level a b l :
  Json.dumps_items level (a :: b :: l)
  = a +:+ String "," (Json.newline_indent level (Json.dumps_items level (b :: l))).
Proof. reflexivity. Qed.

Lemma newline_indent_app level s t :
  Json.newline_indent level s +:+ t = Json.newline_indent level (s +:+ t).
Proof.
  unfold Json.newline_indent. rewrite app_cons. f_equal.
  induction (2 * level)%nat as [|n IH]; [done|].
  cbn [Json.spaces]. by rewrite app_cons, IH.
Qed.

(** The text of the items of a dictionary. *)
Lemma dumps_items_text level k v pairs rest :
  Json.dumps_items level (Json.dumps_item dumps_v <$> ((k, v) :: pairs)) +:+ rest
  = String Json.dquote (items_text dumps_v level k v pairs rest).
Proof.
  revert k v. induction pairs as [|[k' v'] pairs IH]; intros k v.
  - rewrite fmap_cons, fmap_nil, dumps_items_one, app_assoc.
    apply dumps_item_unfold.
  - specialize (IH k' v'). rewrite fmap_cons in IH.
    rewrite !fmap_cons, dumps_items_more, app_assoc, app_cons.
    rewrite newline_indent_app, IH. apply dumps_item_unfold.
Qed.

Lemma parse_pairs_S fuel s :
  Json.parse_pairs parse_v (S fuel) s
  = '(key, s) ← Json.scanstring s;
    s ← Text.expect ":" (Json.skip_ws s);
    '(v, s) ← parse_v (Json.skip_ws s);
    match Json.skip_ws s with
    | String c s' =>
        if Ascii.eqb c "}" then Some ([(key, v)], s')
        else if Ascii.eqb c ","
        then
          s'' ← Text.expect Json.dquote (Json.skip_ws s');
          '(rest, s3) ← Json.parse_pairs parse_v fuel s'';
          Some ((key, v) :: rest, s3)
        else None
    | EmptyString => None
    end.
Proof. reflexivity. Qed.

(** The loop of the decoder reads back the items of a dictionary. *)
Lemma parse_pairs_items level k v pairs fuel rest :
  (length pairs < fuel)%nat →
  Json.parse_pairs parse_v fuel (items_text dumps_v level k v pairs rest)
  = Some ((k, v) :: pairs, rest).
Proof.
  revert k v fuel.
  induction pairs as [|[k' v'] pairs IH]; intros k v fuel Hf;
    (destruct fuel as [|fuel]; [simpl in Hf; lia|]);
    cbn [items_text].
  - destruct (parse_item k v (Json.newline_indent (level - 1) "}" +:+ rest))
      as (E1 & E2 & E3).
    rewrite parse_pairs_S, E1. cbn [mbind option_bind].
    rewrite E2. cbn [mbind option_bind]. rewrite E3. cbn [mbind option_bind].
    rewrite newline_indent_app, skip_ws_newline_indent.
    rewrite app_cons, app_empty_l, skip_ws_cons_solid by reflexivity.
    reflexivity.
  - set (more := items_text dumps_v level k' v' pairs rest).
    destruct (parse_item k v
                (String "," (Json.newline_indent level (String Json.dquote more))))
      as (E1 & E2 & E3).
    rewrite parse_pairs_S, E1. cbn [mbind option_bind].
    rewrite E2. cbn [mbind option_bind]. rewrite E3. cbn [mbind option_bind].
    rewrite skip_ws_cons_solid by reflexivity.
    change (Ascii.eqb "," "}") with false.
    change (Ascii.eqb "," ",") with true. cbv iota.
    rewrite skip_ws_newline_indent, skip_ws_cons_solid by reflexivity.
    rewrite expect_cons. cbn [mbind option_bind].
    unfold more. rewrite IH by (simpl in Hf; lia). reflexivity.
Qed.

End Objects.

(** [dict(pairs)] of pairs with distinct keys. *)
Lemma dict_of_pairs_nodup {V : Type} (pairs : list (string * V))
    (acc : gmap string V) :
  NoDup pairs.*1 →
  foldl (fun m kv => <[kv.1 := kv.2]> m) acc pairs = list_to_map pairs ∪ acc.
Proof.
  revert acc. induction pairs as [|[k v] pairs IH]; intros acc Hnd.
  - simpl. by rewrite (left_id_L ∅ (∪)).
  - simpl in Hnd. apply NoDup_cons in Hnd as [Hk Hnd].
    cbn [foldl fst snd list_to_map foldr]. rewrite (IH _ Hnd).
    rewrite <- insert_union_l. symmetry. apply insert_union_r.
    by apply not_elem_of_list_to_map_1.
Qed.

Lemma dict_of_pairs_to_list {V : Type} (m : gmap string V) :
  Json.dict_of_pairs (map_to_list m) = m.
Proof.
  unfold Json.dict_of_pairs.
  rewrite dict_of_pairs_nodup by apply NoDup_fst_map_to_list.
  by rewrite (right_id_L ∅ (∪)), list_to_map_to_list.
Qed.

Lemma newline_indent_length level s :
  (String.length s ≤ String.length (Json.newline_indent level s))%nat.
Proof.
  unfold Json.newline_indent. cbn [String.length].
  induction (2 * level)%nat as [|n IH]; cbn [Json.spaces String.length]; lia.
Qed.

Lemma item_text_length {V : Type} (dumps_v : V → string) k v tail :
  (String.length tail < String.length (item_text dumps_v k v tail))%nat.
Proof.
  unfold item_text. rewrite app_length. cbn [String.length].
  rewrite app_length. lia.
Qed.

(** The text of the items is longer than their number: the length of the
    text is fuel enough for the decoder. *)
Lemma items_text_length {V : Type} (dumps_v : V → string) level k v pairs rest :
  (length pairs < String.length (items_text dumps_v level k v pairs rest))%nat.
Proof.
  revert k v. induction pairs as [|[k' v'] pairs IH]; intros k v;
    cbn [items_text length].
  - pose proof (item_text_length dumps_v k v
                  (Json.newline_indent (level - 1) "}" +:+ rest)). lia.
  - pose proof (item_text_length dumps_v k v
                  (String ","
                     (Json.newline_indent level
                        (String Json.dquote
                           (items_text dumps_v level k' v' pairs rest))))) as H1.
    pose proof (newline_indent_length level
                  (String Json.dquote
                     (items_text dumps_v level k' v' pairs rest))) as H2.
    specialize (IH k' v'). cbn [String.length] in H1, H2. lia.
Qed.

(** The decoder reads back a dictionary that the encoder wrote. *)
Lemma parse_object_dumps {V : Type} (dumps_v : V → string)
    (parse_v : string → option (V * string)) (level : nat)
    (m : gmap string V) (rest : string) :
  (∀ v rest, parse_v (dumps_v v +:+ rest) = Some (v, rest)) →
  (∀ v, starts_solid (dumps_v v)) →
  Json.parse_object parse_v
    (Json.dumps_dict level (Json.dumps_item dumps_v <$> map_to_list m) +:+ rest)
  = Some (m, rest).
Proof.
  intros Hp Hs. rewrite <- (dict_of_pairs_to_list m) at 2.
  destruct (map_to_list m) as [|[k v] pairs].
  - reflexivity.
  - rewrite fmap_cons. unfold Json.dumps_dict. rewrite <- fmap_cons.
    rewrite app_cons, newline_indent_app, dumps_items_text.
    unfold Json.parse_object.
    change (Ascii.eqb "{" "{") with true. cbv iota.
    rewrite skip_ws_newline_indent, skip_ws_cons_solid by reflexivity.
    change (Ascii.eqb Json.dquote "}") with false.
    change (Ascii.eqb Json.dquote Json.dquote) with true. cbv iota.
    rewrite (parse_pairs_items dumps_v parse_v Hp Hs)
      by apply items_text_length.
    reflexivity.
Qed.

Lemma parse_record_dumps r rest :
  Json.parse_record (Json.dumps_record r +:+ rest) = Some (r, rest).
Proof.
  unfold Json.parse_record, Json.dumps_record.
  apply parse_object_dumps; [apply parse_value_dumps|apply dumps_value_solid].
Qed.

(** [json.load] reads back what [json.dump] wrote. *)
Lemma loads_dumps (store : gmap string (gmap string value)) :
  Json.loads (Json.dumps store) = Ok store.
Proof.
  unfold Json.loads, Json.dumps.
  rewrite <- (app_empty_r (Json.dumps_dict 1 _)).
  rewrite skip_ws_solid by apply dumps_dict_solid.
  rewrite (parse_object_dumps Json.dumps_record Json.parse_record).
  - reflexivity.
  - apply parse_record_dumps.
  - intros r. apply dumps_dict_solid.
Qed.


(** ** The weekday strategy answers *)

Lemma strptime_reads_all :
  forallb (fun h => forallb (strptime_reads h) (seqZ 0 60)) (seqZ 0 24) = true.
Proof. vm_compute. reflexivity. Qed.

Lemma combine_date_time_clock date h m :
  0 ≤ h ≤ 23 → 0 ≤ m ≤ 59 →
  TimeParser._combine_date_time date h (Text.zfill 2 m)
  = Ok (Some (combine date (h, m))).
Proof.
  intros Hh Hm. pose proof strptime_reads_all as Hall.
  rewrite forallb_forall in Hall.
  assert (In h (seqZ 0 24)) as Hin
    by (apply list_elem_of_In, elem_of_seqZ; lia).
  specialize (Hall h Hin). rewrite forallb_forall in Hall.
  assert (In m (seqZ 0 60)) as Hin'
    by (apply list_elem_of_In, elem_of_seqZ; lia).
  specialize (Hall m Hin'). unfold strptime_reads in Hall.
  unfold TimeParser._combine_date_time.
  destruct (strptime_HM _) as [[h' m']|e]; [|discriminate].
  apply andb_true_iff in Hall as [->%Z.eqb_eq ->%Z.eqb_eq]. reflexivity.
Qed.

(** A phrase with a weekday name and a time of the clock gets an answer
    from the weekday strategy. *)
Lemma weekday_strategy_answers time_str now name num g1 g2 :
  valid_datetime now → toordinal now + 7 ≤ _MAXORDINAL →
  List.find (fun e => Text.contains e.1 time_str) TimeParser.weekday_map
  = Some (name, num) →
  TimeParser.search_time time_str = Some (g1, g2) →
  0 ≤ Text.int g1 ≤ 23 → 0 ≤ TimeParser.minute_of g2 ≤ 59 →
  ∃ target,
    TimeParser._get_next_weekday num 0 now = Ok target
    ∧ TimeParser._parse_weekday_time time_str now
      = Ok (Some (combine target (Text.int g1, TimeParser.minute_of g2))).
Proof.
  intros Hv Hmax Hf Hs Hh Hm. rewrite parse_weekday_time_unfold.
  pose proof (find_some _ _ Hf) as [Hin _].
  apply weekday_map_range in Hin. pose proof (weekday_range now) as Hw.
  assert (∃ target, TimeParser._get_next_weekday num 0 now = Ok target)
    as [target Ht].
  { unfold TimeParser._get_next_weekday.
    apply dt_plus_days_Ok; [done| |];
      destruct (Z.leb_spec (num - weekday now) 0); lia. }
  exists target. split; [exact Ht|].
  revert Hf. generalize TimeParser.weekday_map.
  induction l as [|[name' num'] l IH]; [discriminate|].
  cbn [List.find TimeParser.weekday_loop fst].
  destruct (Text.contains name' time_str).
  - intros [= -> ->]. rewrite Hs, Ht. cbn [mbind result_bind].
    by apply combine_date_time_clock.
  - exact IH.
Qed.
